(** * Alpenhorn: PKG extraction and the client's dialing round handlers

    A shallow embedding of [pkg/extract.go], [dialing.go] and the client's
    persistence code, with the properties of the specification that concern
    them.  Go's multiple return values, panics and side effects are made
    explicit: a handler is a function from a state to an outcome and a new
    state, and every effect that leaves the process (database, disk,
    network, application callbacks) is appended to a log. *)

From Stdlib Require Import ZArith NArith Lia.
From Stdlib Require Import Strings.String Strings.Byte.
From stdpp Require Import gmap strings list fin_maps.

Abbreviation bytes := (list byte).

#[global] Instance byte_eq_dec : EqDecision byte := Byte.byte_eq_dec.
#[global] Instance byte_countable : Countable byte :=
  inj_countable Byte.to_N Byte.of_N Byte.of_to_N.

(** ** Go control flow: return values, panics, threaded state *)

Module Go.

Inductive Outcome (A : Type) : Type :=
| Returned (a : A)
| Panicked (reason : string).
Arguments Returned {A} a.
Arguments Panicked {A} reason.

Definition M (S A : Type) : Type := S → Outcome A * S.

Definition ret {S A : Type} (a : A) : M S A := λ s, (Returned a, s).

Definition panic {S A : Type} (reason : string) : M S A :=
  λ s, (Panicked reason, s).

Definition bind {S A B : Type} (m : M S A) (k : A → M S B) : M S B :=
  λ s, match m s with
       | (Returned a, s') => k a s'
       | (Panicked r, s') => (Panicked r, s')
       end.

Definition lift {S A : Type} (o : Outcome A) : M S A := λ s, (o, s).

Definition gets {S A : Type} (f : S → A) : M S A := λ s, (Returned (f s), s).

Definition modify {S : Type} (f : S → S) : M S unit := λ s, (Returned tt, f s).

(** The arguments a formatting call receives after its format string. *)
Inductive FmtArg : Type :=
| ArgNum (n : N)
| ArgStr (s : string)
| ArgBytes (b : bytes).

(** The dereference of a nil pointer. *)
Definition nilDeref : string := "invalid memory address or nil pointer dereference".

(** An index expression out of range. *)
Definition indexOutOfRange : string := "index out of range".

(** A failed type assertion [x.(T)]. *)
Definition badTypeAssertion : string := "interface conversion".

End Go.

Export Go.

Notation "'do' x <- m ; k" := (Go.bind m (λ x, k))
  (at level 10, x name, m at level 100, k at level 200,
   format "'[v' 'do'  x  <-  m ; '/' k ']'").
Notation "'do' ' p <- m ; k" := (Go.bind m (λ x, match x with p => k end))
  (at level 10, p pattern, m at level 100, k at level 200,
   format "'[v' 'do'  ' p  <-  m ; '/' k ']'").

(** [binary.Write(buf, binary.BigEndian, r)] for a [uint32]. *)
Definition byte_of_N (n : N) : byte := default x00 (Byte.of_N (n mod 256)).

Definition be32 (r : N) : bytes :=
  [byte_of_N (r / 2 ^ 24); byte_of_N (r / 2 ^ 16); byte_of_N (r / 2 ^ 8); byte_of_N r].

(** ** The PKG server: [pkg/extract.go] *)

Module PKG.

Inductive ErrorCode : Type :=
| ErrBadRequestJSON
| ErrRoundNotFound
| ErrInvalidUserLongTermKey
| ErrInvalidUsername
| ErrNotRegistered
| ErrDatabaseError
| ErrInvalidSignature.

#[global] Instance ErrorCode_eq_dec : EqDecision ErrorCode.
Proof. solve_decision. Defined.

Record Error : Type := errorf { Code : ErrorCode; Format : string; FmtArgs : list FmtArg }.

Definition PublicKeySize : nat := 32.

Record extractArgs : Type := {
  args_Round : N;
  args_Username : string;
  (* a pointer to a 32-byte array: nil when the JSON body lacks the field *)
  ReturnKey : option bytes;
  UserLongTermKey : bytes;
  ServerSigningKey : bytes;
  args_Signature : bytes;
}.

(** The part of the stored user record that extraction reads. *)
Record userState : Type := { LoginKey : bytes }.

Record lastExtraction : Type := { le_Round : N; UnixTime : Z }.

Inductive Suffix : Type := registrationSuffix | lastExtractionSuffix.

(** Everything [extract.go] calls but does not define: the username
    encoding and the record encodings of the package, and the ed25519, IBE,
    box and BLS libraries. *)
Record Externals : Type := {
  MasterPrivateKey : Type;
  blsPrivateKey : Type;
  blsPublicKey : Type;
  blsSignature : Type;
  UsernameToIdentity : string → string + bytes;
  dbUserKey : bytes → Suffix → bytes;
  userState_Unmarshal : bytes → string + userState;
  lastExtraction_Marshal : lastExtraction → bytes;
  ed25519_Sign : bytes → bytes → bytes;
  ed25519_Verify : bytes → bytes → bytes → bool;
  ibe_Extract : MasterPrivateKey → bytes → bytes;
  box_Seal : bytes → bytes → bytes → bytes → bytes;
  bls_Sign : blsPrivateKey → bytes → blsSignature;
  bls_MarshalBinary : blsPublicKey → bytes;
}.

Section WithExternals.
Context (X : Externals).

Record extractReply : Type := {
  reply_Round : N;
  reply_Username : string;
  EncryptedPrivateKey : bytes;
  reply_Signature : bytes;
  IdentitySig : option (blsSignature X);
}.

Record Attestation : Type := {
  AttestKey : option (blsPublicKey X);
  UserIdentity : option bytes;
  att_UserLongTermKey : bytes;
}.

Record roundState : Type := {
  masterPrivateKey : MasterPrivateKey X;
  rs_blsPrivateKey : blsPrivateKey X;
  rs_blsPublicKey : option (blsPublicKey X);
}.

Record Server : Type := {
  rounds : gmap N roundState;
  publicKey : bytes;
  privateKey : bytes;
}.

(** Modelled from the spec: [ValidUsernameToIdentity] is total on valid
    usernames and yields the identity [UsernameToIdentity] yields; on any
    other name it does not return. *)
Definition ValidUsernameToIdentity (username : string) : Outcome bytes :=
  match UsernameToIdentity X username with
  | inr id => Returned id
  | inl e => Panicked e
  end.

Definition extractArgs_msg (a : extractArgs) : Outcome bytes :=
  match ValidUsernameToIdentity (args_Username a) with
  | Panicked r => Panicked r
  | Returned id =>
      match ReturnKey a with
      | None => Panicked nilDeref
      | Some returnKey =>
          Returned (list_byte_of_string "ExtractArgs"
                      ++ ServerSigningKey a
                      ++ be32 (args_Round a)
                      ++ id
                      ++ returnKey
                      ++ UserLongTermKey a)
      end
  end.

Definition extractArgs_Verify (a : extractArgs) (loginKey : bytes) : Outcome bool :=
  match extractArgs_msg a with
  | Panicked r => Panicked r
  | Returned m => Returned (ed25519_Verify X loginKey m (args_Signature a))
  end.

Definition extractReply_msg (r : extractReply) : Outcome bytes :=
  match ValidUsernameToIdentity (reply_Username r) with
  | Panicked p => Panicked p
  | Returned id =>
      Returned (list_byte_of_string "ExtractReply"
                  ++ be32 (reply_Round r)
                  ++ id
                  ++ EncryptedPrivateKey r)
  end.

Definition extractReply_Sign (r : extractReply) (key : bytes) : Outcome extractReply :=
  match extractReply_msg r with
  | Panicked p => Panicked p
  | Returned m =>
      Returned {| reply_Round := reply_Round r;
                  reply_Username := reply_Username r;
                  EncryptedPrivateKey := EncryptedPrivateKey r;
                  reply_Signature := ed25519_Sign X key m;
                  IdentitySig := IdentitySig r |}
  end.

Definition Attestation_Marshal (a : Attestation) : Outcome bytes :=
  match AttestKey a with
  | None => Panicked nilDeref
  | Some k =>
      match UserIdentity a with
      | None => Panicked nilDeref
      | Some id => Returned (bls_MarshalBinary X k ++ id ++ att_UserLongTermKey a)
      end
  end.

Definition extractArgs_Sign (a : extractArgs) (loginKey : bytes) : Outcome extractArgs :=
  match extractArgs_msg a with
  | Panicked r => Panicked r
  | Returned m =>
      Returned {| args_Round := args_Round a;
                  args_Username := args_Username a;
                  ReturnKey := ReturnKey a;
                  UserLongTermKey := UserLongTermKey a;
                  ServerSigningKey := ServerSigningKey a;
                  args_Signature := ed25519_Sign X loginKey m |}
  end.

Definition extractReply_Verify (r : extractReply) (key : bytes) : Outcome bool :=
  match extractReply_msg r with
  | Panicked p => Panicked p
  | Returned m => Returned (ed25519_Verify X key m (reply_Signature r))
  end.

Definition zeroNonce : bytes := replicate 24 x00.

(** *** The world around one call of [extract] *)

(** What the server does to the outside, in program order. *)
Inductive Event : Type :=
| EvGet (key : bytes)
| EvNow (t : Z)
| EvCommit (key value : bytes)
| EvUpdateFailed (key : bytes)
| EvGenerateKey.

(** The backing store, the wall clock in Unix seconds, and the log. *)
Record World : Type := {
  db : gmap bytes bytes;
  clock : Z;
  log : list Event;
}.

(** What the outside answers during one call: whether the store fails on
    the read, on the value callback or on the update, what [rand.Reader]
    yields to [box.GenerateKey], and how long the update and the key
    generation take. *)
Record Env : Type := {
  getFault : option string;
  valueFault : option string;
  updateFault : option string;
  generateKey : string + bytes * bytes;
  updateLatency : N;
  generateLatency : N;
}.

Section WithEnv.
Context (env : Env) (srv : Server).

Definition emit (e : Event) : M World unit :=
  modify (λ w, {| db := db w; clock := clock w; log := log w ++ [e] |}).

Definition elapse (d : N) : M World unit :=
  modify (λ w, {| db := db w; clock := (clock w + Z.of_N d)%Z; log := log w |}).

Inductive GetResult : Type :=
| ErrKeyNotFound
| GetError (e : string)
| Item (data : bytes).

(** [tx.Get] on a fresh read-only transaction. *)
Definition tx_Get (key : bytes) : M World GetResult :=
  do _ <- emit (EvGet key);
  match getFault env with
  | Some e => ret (GetError e)
  | None =>
      do stored <- gets (λ w, db w !! key);
      match stored with
      | None => ret ErrKeyNotFound
      | Some data => ret (Item data)
      end
  end.

(** [item.Value(func(data) error { return user.Unmarshal(data) })]. *)
Definition item_Value (data : bytes) : string + userState :=
  match valueFault env with
  | Some e => inl e
  | None => userState_Unmarshal X data
  end.

(** [time.Now().Unix()]. *)
Definition time_Now : M World Z :=
  do t <- gets clock;
  do _ <- emit (EvNow t);
  ret t.

(** [srv.db.Update(func(tx) error { return tx.Set(key, value) })]: the
    write is visible once the transaction has committed, and a failed
    transaction leaves the store as it was. *)
Definition db_Update (key value : bytes) : M World (option string) :=
  do _ <- elapse (updateLatency env);
  match updateFault env with
  | Some e =>
      do _ <- emit (EvUpdateFailed key);
      ret (Some e)
  | None =>
      do _ <- modify (λ w, {| db := <[key := value]> (db w); clock := clock w; log := log w |});
      do _ <- emit (EvCommit key value);
      ret None
  end.

(** [box.GenerateKey(rand.Reader)]. *)
Definition box_GenerateKey : M World (string + bytes * bytes) :=
  do _ <- elapse (generateLatency env);
  do _ <- emit EvGenerateKey;
  ret (generateKey env).

(** [srv.getUser(nil, username)]; on an error the zero [user] and the
    identity pointer that Go returns beside it are not read by the caller. *)
Definition getUser (username : string) : M World (Error + userState * bytes) :=
  match UsernameToIdentity X username with
  | inl e => ret (inl (errorf ErrInvalidUsername "%s" [ArgStr e]))
  | inr id =>
      do item <- tx_Get (dbUserKey X id registrationSuffix);
      match item with
      | ErrKeyNotFound => ret (inl (errorf ErrNotRegistered "%q" [ArgStr username]))
      | GetError e => ret (inl (errorf ErrDatabaseError "%s" [ArgStr e]))
      | Item data =>
          match item_Value data with
          | inl e => ret (inl (errorf ErrDatabaseError "%s" [ArgStr e]))
          | inr user => ret (inr (user, id))
          end
      end
  end.

(** [srv.extract(args)]: the pair is Go's two results, the reply pointer
    and the error. *)
Definition extract (args : extractArgs) : M World (option extractReply * option Error) :=
  match rounds srv !! args_Round args with
  | None => ret (None, Some (errorf ErrRoundNotFound "%d" [ArgNum (args_Round args)]))
  | Some st =>
      if negb (length (UserLongTermKey args) =? PublicKeySize)%nat then
        ret (None, Some (errorf ErrInvalidUserLongTermKey "got %d bytes, want %d"
                           [ArgNum (N.of_nat (length (UserLongTermKey args)));
                            ArgNum (N.of_nat PublicKeySize)]))
      else
        do found <- getUser (args_Username args);
        match found with
        | inl err => ret (None, Some err)
        | inr (user, id) =>
            do verified <- lift (extractArgs_Verify args (LoginKey user));
            if negb verified then
              ret (None, Some (errorf ErrInvalidSignature "key=%x" [ArgBytes (LoginKey user)]))
            else
              do now <- time_Now;
              let lastExtraction := {| le_Round := args_Round args; UnixTime := now |} in
              do err <- db_Update (dbUserKey X id lastExtractionSuffix)
                                  (lastExtraction_Marshal X lastExtraction);
              match err with
              | Some e => ret (None, Some (errorf ErrDatabaseError "%s" [ArgStr e]))
              | None =>
                  let idKeyBytes := ibe_Extract X (masterPrivateKey st) id in
                  do generated <- box_GenerateKey;
                  match generated with
                  | inl e => panic ("box.GenerateKey: " +:+ e)
                  | inr (boxPublicKey, boxPrivateKey) =>
                      match ReturnKey args with
                      | None => panic nilDeref
                      | Some returnKey =>
                          let ctxt :=
                            boxPublicKey ++ box_Seal X idKeyBytes zeroNonce returnKey boxPrivateKey in
                          let attestation :=
                            {| AttestKey := rs_blsPublicKey st;
                               UserIdentity := Some id;
                               att_UserLongTermKey := UserLongTermKey args |} in
                          do attested <- lift (Attestation_Marshal attestation);
                          let idSig := bls_Sign X (rs_blsPrivateKey st) attested in
                          let reply :=
                            {| reply_Round := args_Round args;
                               reply_Username := args_Username args;
                               EncryptedPrivateKey := ctxt;
                               reply_Signature := [];
                               IdentitySig := Some idSig |} in
                          do signed <- lift (extractReply_Sign reply (privateKey srv));
                          ret (Some signed, None)
                      end
                  end
              end
        end
  end.

(** [srv.extractHandler]: [decoded] is what [json.NewDecoder(body).Decode]
    left in [args] (or its error); the handler's answer is the reply it
    hands to [json.Marshal], or the error it hands to [httpError]. *)
Definition extractHandler (decoded : string + extractArgs)
  : M World (option extractReply * option Error) :=
  match decoded with
  | inl e => ret (None, Some (errorf ErrBadRequestJSON "%s" [ArgStr e]))
  | inr args =>
      let args :=
        {| args_Round := args_Round args;
           args_Username := args_Username args;
           ReturnKey := ReturnKey args;
           UserLongTermKey := UserLongTermKey args;
           ServerSigningKey := publicKey srv;
           args_Signature := args_Signature args |} in
      extract args
  end.

End WithEnv.
End WithExternals.

Arguments reply_Round {X} _.
Arguments reply_Username {X} _.
Arguments EncryptedPrivateKey {X} _.
Arguments reply_Signature {X} _.
Arguments IdentitySig {X} _.
Arguments AttestKey {X} _.
Arguments UserIdentity {X} _.
Arguments att_UserLongTermKey {X} _.
Arguments masterPrivateKey {X} _.
Arguments rs_blsPrivateKey {X} _.
Arguments rs_blsPublicKey {X} _.
Arguments rounds {X} _.
Arguments publicKey {X} _.
Arguments privateKey {X} _.

End PKG.

(** ** The dialing client: [dialing.go] and the client's persistence *)

Module Dialing.

(** [errors.New(format, args...)] and [errors.Wrap(err, msg)]. *)
Inductive AppError : Type :=
| errors_New (format : string) (args : list FmtArg)
| errors_Wrap (cause : string) (msg : string).

Record ServerConfig : Type := { Key : bytes; Address : string }.

Record DialingConfig : Type := {
  MixServers : list ServerConfig;
  CDNServer : ServerConfig;
}.

(** The dynamic type behind [SignedConfig.Inner]. *)
Inductive InnerConfig : Type :=
| InnerDialing (cfg : DialingConfig)
| InnerOther.

Record NewRound : Type := { nr_Round : N; ConfigHash : string }.

Record RoundSettings : Type := {
  Service : string;
  rs_Round : N;
  OnionKeys : list bytes;
  RawServiceData : bytes;
}.

Record MixRound : Type := {
  MixSettings : RoundSettings;
  MixSignatures : list bytes;
}.

Record MailboxURL : Type := { mb_Round : N; URL : string; NumMailboxes : N }.

Record OnionMsg : Type := { om_Round : N; Onion : bytes }.

Record ServiceData : Type := { sd_NumMailboxes : N }.

Record MixMessage : Type := { Mailbox : N; Token : bytes }.

Record OutgoingCall : Type := {
  oc_Username : string;
  oc_Intent : nat;
  sentRound : N;
}.

Record IncomingCall : Type := {
  ic_Username : string;
  ic_Intent : nat;
  SessionKey : bytes;
}.

Record UserDialTokens : Type := { FromUsername : string; Tokens : list bytes }.

Record Friend : Type := {
  fr_Username : string;
  fr_LongTermKey : bytes;
  extraData : bytes;
}.

Record persistedFriend : Type := {
  pf_Username : string;
  pf_LongTermKey : bytes;
  ExtraData : bytes;
}.

(** What the handlers use and this part of the repository does not define:
    the configuration, key-wheel, Bloom-filter and mixnet packages, the
    encodings, and the types of the client record that the handlers only
    carry along. *)
Record Externals : Type := {
  SignedConfig : Type;
  ConnectionSettingsT : Type;
  IncomingFriendRequest : Type;
  OutgoingFriendRequest : Type;
  sentFriendRequest : Type;
  pkgClient : Type;
  Wheel : Type;
  Filter : Type;
  Inner : SignedConfig → InnerConfig;
  Hash : SignedConfig → string;
  IntentMax : nat;
  IncomingDialTokens : Wheel → string → N → nat → list UserDialTokens;
  wheel_SessionKey : Wheel → string → N → bytes;
  EraseKeys : Wheel → N → Wheel;
  wheel_MarshalBinary : Wheel → string + bytes;
  (* [new(bloom.Filter)] *)
  newFilter : Filter;
  (* [filter.UnmarshalBinary(data)]: the receiver afterwards, and the error *)
  UnmarshalBinary : Filter → bytes → Filter * option string;
  Test : Filter → bytes → bool;
  ServiceData_Unmarshal : bytes → string + ServiceData;
  SigningMessage : RoundSettings → bytes;
  ed25519_Verify : bytes → bytes → bytes → bool;
  base32_EncodeToString : bytes → string;
  usernameToMailbox : string → N → N;
  computeKeys_token : Wheel → OutgoingCall → bytes;
  mustMarshal : MixMessage → bytes;
  ForwardNonce : N → bytes;
  onionbox_Seal : bytes → bytes → list bytes → bytes;
}.

Section WithExternals.
Context (X : Externals).

Record dialingRoundState : Type := {
  st_Round : N;
  Config : DialingConfig;
  ConfigParent : SignedConfig X;
}.

Record persistedState : Type := {
  ps_Username : string;
  ps_LongTermPublicKey : bytes;
  ps_LongTermPrivateKey : bytes;
  ps_ConnectionSettings : ConnectionSettingsT X;
  IncomingFriendRequests : list (IncomingFriendRequest X);
  OutgoingFriendRequests : list (OutgoingFriendRequest X);
  SentFriendRequests : list (sentFriendRequest X);
  Friends : gmap string persistedFriend;
  Registrations : gmap string (pkgClient X);
}.

(** The fields of [Client] that the handlers and the persistence code
    read or write. *)
Record Client : Type := {
  Username : string;
  LongTermPublicKey : bytes;
  LongTermPrivateKey : bytes;
  ConnectionSettings : ConnectionSettingsT X;
  ClientPersistPath : string;
  KeywheelPersistPath : string;
  incomingFriendRequests : list (IncomingFriendRequest X);
  outgoingFriendRequests : list (OutgoingFriendRequest X);
  sentFriendRequests : list (sentFriendRequest X);
  friends : gmap string Friend;
  registrations : gmap string (pkgClient X);
  wheel : Wheel X;
  dialingRounds : gmap N dialingRoundState;
  dialingConfig : SignedConfig X;
  dialingConfigHash : string;
  lastDialingRound : N;
  outgoingCalls : list OutgoingCall;
}.

(** The client with its dialing fields replaced. *)
Definition withDialing (c : Client) (w : Wheel X) (rs : gmap N dialingRoundState)
    (cfg : SignedConfig X) (h : string) (last : N) (calls : list OutgoingCall) : Client :=
  {| Username := Username c;
     LongTermPublicKey := LongTermPublicKey c;
     LongTermPrivateKey := LongTermPrivateKey c;
     ConnectionSettings := ConnectionSettings c;
     ClientPersistPath := ClientPersistPath c;
     KeywheelPersistPath := KeywheelPersistPath c;
     incomingFriendRequests := incomingFriendRequests c;
     outgoingFriendRequests := outgoingFriendRequests c;
     sentFriendRequests := sentFriendRequests c;
     friends := friends c;
     registrations := registrations c;
     wheel := w;
     dialingRounds := rs;
     dialingConfig := cfg;
     dialingConfigHash := h;
     lastDialingRound := last;
     outgoingCalls := calls |}.

Definition set_wheel (w : Wheel X) (c : Client) : Client :=
  withDialing c w (dialingRounds c) (dialingConfig c) (dialingConfigHash c)
    (lastDialingRound c) (outgoingCalls c).

Definition set_dialingRounds (rs : gmap N dialingRoundState) (c : Client) : Client :=
  withDialing c (wheel c) rs (dialingConfig c) (dialingConfigHash c)
    (lastDialingRound c) (outgoingCalls c).

Definition set_dialingConfig (cfg : SignedConfig X) (h : string) (c : Client) : Client :=
  withDialing c (wheel c) (dialingRounds c) cfg h (lastDialingRound c) (outgoingCalls c).

Definition set_lastDialingRound (r : N) (c : Client) : Client :=
  withDialing c (wheel c) (dialingRounds c) (dialingConfig c) (dialingConfigHash c)
    r (outgoingCalls c).

Definition set_outgoingCalls (calls : list OutgoingCall) (c : Client) : Client :=
  withDialing c (wheel c) (dialingRounds c) (dialingConfig c) (dialingConfigHash c)
    (lastDialingRound c) calls.

(** What a handler does to the outside, in program order. *)
Inductive Event : Type :=
| HandlerError (e : AppError)
| HandlerNewConfig (configs : list (SignedConfig X))
| HandlerSendingCall (call : OutgoingCall)
| HandlerReceivedCall (call : IncomingCall)
| ConnSend (name : string) (msg : OnionMsg)
| CallFetchAndVerifyChain (have : SignedConfig X) (want : string)
| CallFetchMailbox (cdn : ServerConfig) (url : string) (mailboxID : N)
| WriteFile (path : string) (data : bytes) (ok : bool).

(** The client, the files on disk, and the log. *)
Record State : Type := {
  client : Client;
  disk : gmap string bytes;
  trace : list Event;
}.

(** What the outside answers: the configuration service, the CDN, the
    JSON encoder, and whether a write to disk fails. *)
Record Env : Type := {
  FetchAndVerifyChain : SignedConfig X → string → string + list (SignedConfig X);
  fetchMailbox : ServerConfig → string → N → string + bytes;
  json_MarshalIndent : persistedState → string + bytes;
  writeFault : string → bytes → option string;
}.

Section WithEnv.
Context (env : Env).

Definition emit (e : Event) : M State unit :=
  modify (λ s, {| client := client s; disk := disk s; trace := trace s ++ [e] |}).

Definition update (f : Client → Client) : M State unit :=
  modify (λ s, {| client := f (client s); disk := disk s; trace := trace s |}).

Definition Handler_Error (e : AppError) : M State unit := emit (HandlerError e).

(** [ioutil2.WriteFileAtomic(path, data, 0600)]: the file holds the new
    data, or on an error what it held before. *)
Definition WriteFileAtomic (path : string) (data : bytes) : M State (option string) :=
  match writeFault env path data with
  | Some e =>
      do _ <- emit (WriteFile path data false);
      ret (Some e)
  | None =>
      do _ <- modify (λ s, {| client := client s;
                               disk := <[path := data]> (disk s);
                               trace := trace s |});
      do _ <- emit (WriteFile path data true);
      ret None
  end.

Definition persistedFriendOf (friend : Friend) : persistedFriend :=
  {| pf_Username := fr_Username friend;
     pf_LongTermKey := fr_LongTermKey friend;
     ExtraData := extraData friend |}.

(** The [persistedState] that [persistClient] builds from the client,
    its loop over [c.friends] included. *)
Definition persistedStateOf (c : Client) : persistedState :=
  {| ps_Username := Username c;
     ps_LongTermPublicKey := LongTermPublicKey c;
     ps_LongTermPrivateKey := LongTermPrivateKey c;
     ps_ConnectionSettings := ConnectionSettings c;
     IncomingFriendRequests := incomingFriendRequests c;
     OutgoingFriendRequests := outgoingFriendRequests c;
     SentFriendRequests := sentFriendRequests c;
     Friends := persistedFriendOf <$> friends c;
     Registrations := registrations c |}.

Definition persistClient : M State (option string) :=
  do c <- gets client;
  let st := persistedStateOf c in
  match json_MarshalIndent env st with
  | inl err => ret (Some err)
  | inr data => WriteFileAtomic (ClientPersistPath c) data
  end.

Definition persistKeywheel : M State (option string) :=
  do c <- gets client;
  match wheel_MarshalBinary X (wheel c) with
  | inl err => ret (Some err)
  | inr data => WriteFileAtomic (KeywheelPersistPath c) data
  end.

Definition persistLocked : M State (option string) :=
  do c <- gets client;
  do err <- (if decide (ClientPersistPath c ≠ "") then persistClient else ret None);
  if decide (KeywheelPersistPath c ≠ "") then
    do e <- persistKeywheel;
    ret (match err with None => e | Some _ => err end)
  else ret err.

Definition Persist : M State (option string) := persistLocked.

(** The assignment of a new [dialingRoundState] to [c.dialingRounds[round]]:
    its [Config] is [parent.Inner] asserted to be a dialing configuration,
    its [ConfigParent] is [parent]. *)
Definition recordRound (round : N) (parent : SignedConfig X) : M State unit :=
  match Inner X parent with
  | InnerDialing cfg =>
      update (λ c, set_dialingRounds
                     (<[round := {| st_Round := round; Config := cfg; ConfigParent := parent |}]>
                        (dialingRounds c)) c)
  | InnerOther => panic badTypeAssertion
  end.

Definition newDialingRound (v : NewRound) : M State unit :=
  do c <- gets client;
  match dialingRounds c !! nr_Round v with
  | Some st =>
      if decide (Hash X (ConfigParent st) ≠ ConfigHash v) then
        Handler_Error (errors_New "coordinator announced different configs round %d"
                         [ArgNum (nr_Round v)])
      else ret tt
  | None =>
      if decide (ConfigHash v = dialingConfigHash c) then
        recordRound (nr_Round v) (dialingConfig c)
      else
        do _ <- emit (CallFetchAndVerifyChain (dialingConfig c) (ConfigHash v));
        match FetchAndVerifyChain env (dialingConfig c) (ConfigHash v) with
        | inl err => Handler_Error (errors_Wrap err "fetching dialing config")
        | inr configs =>
            do _ <- emit (HandlerNewConfig configs);
            match configs with
            | [] => panic indexOutOfRange
            | newConfig :: _ =>
                do _ <- update (set_dialingConfig newConfig (ConfigHash v));
                do err <- persistLocked;
                match err with
                | Some e => panic ("failed to persist state: " +:+ e)
                | None => recordRound (nr_Round v) newConfig
                end
            end
        end
  end.

(** The loop over [st.Config.MixServers] from index [i] on: the first
    mixer whose signature does not verify, if there is one. *)
Fixpoint verifyMixServers (settingsMsg : bytes) (sigs : list bytes) (i : nat)
    (mixers : list ServerConfig) : Outcome (option ServerConfig) :=
  match mixers with
  | [] => Returned None
  | mixer :: rest =>
      match sigs !! i with
      | None => Panicked indexOutOfRange
      | Some sig =>
          if negb (ed25519_Verify X (Key mixer) settingsMsg sig) then Returned (Some mixer)
          else verifyMixServers settingsMsg sigs (S i) rest
      end
  end.

Definition nextOutgoingCall (round : N) : M State (option OutgoingCall) :=
  do c <- gets client;
  match outgoingCalls c with
  | [] => ret None
  | call :: rest =>
      do _ <- update (set_outgoingCalls rest);
      ret (Some call)
  end.

Definition zeroToken : bytes := replicate 32 x00.

Definition sendDialingOnion (v : MixRound) : M State unit :=
  let round := rs_Round (MixSettings v) in
  do c <- gets client;
  match dialingRounds c !! round with
  | None =>
      Handler_Error (errors_New "sendDialingOnion: round %d not configured" [ArgNum round])
  | Some st =>
      match ServiceData_Unmarshal X (RawServiceData (MixSettings v)) with
      | inl err =>
          Handler_Error
            (errors_New "sendAddFriendOnion: round %d: error parsing service data: %s"
               [ArgNum round; ArgStr err])
      | inr serviceData =>
          let settingsMsg := SigningMessage X (MixSettings v) in
          do failed <- lift (verifyMixServers settingsMsg (MixSignatures v) 0
                               (MixServers (Config st)));
          match failed with
          | Some mixer =>
              Handler_Error
                (errors_New "round %d: failed to verify mixnet settings for key %s"
                   [ArgNum round; ArgStr (base32_EncodeToString X (Key mixer))])
          | None =>
              do _ <- update (set_lastDialingRound round);
              do next <- nextOutgoingCall round;
              do mixMessage <-
                match next with
                | Some call =>
                    let call := {| oc_Username := oc_Username call;
                                   oc_Intent := oc_Intent call;
                                   sentRound := round |} in
                    do _ <- emit (HandlerSendingCall call);
                    do c <- gets client;
                    let token := computeKeys_token X (wheel c) call in
                    ret {| Mailbox := usernameToMailbox X (oc_Username call)
                                        (sd_NumMailboxes serviceData);
                           Token := token |}
                | None => ret {| Mailbox := 0; Token := zeroToken |}
                end;
              let onion := onionbox_Seal X (mustMarshal X mixMessage) (ForwardNonce X round)
                             (OnionKeys (MixSettings v)) in
              emit (ConnSend "onion" {| om_Round := round; Onion := onion |})
          end
      end
  end.

(** The inner loop of the scan, over [user.Tokens] from index [intent] on. *)
Fixpoint scanTokens (filter : Filter X) (round : N) (from : string) (intent : nat)
    (tokens : list bytes) : M State unit :=
  match tokens with
  | [] => ret tt
  | token :: rest =>
      do _ <-
        (if Test X filter token then
           do c <- gets client;
           emit (HandlerReceivedCall
                   {| ic_Username := from;
                      ic_Intent := intent;
                      SessionKey := wheel_SessionKey X (wheel c) from round |})
         else ret tt);
      scanTokens filter round from (S intent) rest
  end.

(** The outer loop of the scan, over [allTokens]. *)
Fixpoint scanUsers (filter : Filter X) (round : N) (allTokens : list UserDialTokens)
    : M State unit :=
  match allTokens with
  | [] => ret tt
  | user :: rest =>
      do _ <- scanTokens filter round (FromUsername user) 0 (Tokens user);
      scanUsers filter round rest
  end.

Definition scanBloomFilter (v : MailboxURL) : M State unit :=
  do c <- gets client;
  match dialingRounds c !! mb_Round v with
  | None => ret tt
  | Some st =>
      let mailboxID := usernameToMailbox X (Username c) (NumMailboxes v) in
      do _ <- emit (CallFetchMailbox (CDNServer (Config st)) (URL v) mailboxID);
      match fetchMailbox env (CDNServer (Config st)) (URL v) mailboxID with
      | inl err => Handler_Error (errors_Wrap err "fetching mailbox")
      | inr mailbox =>
          let '(filter, failure) := UnmarshalBinary X (newFilter X) mailbox in
          do _ <-
            match failure with
            | Some err => Handler_Error (errors_Wrap err "decoding bloom filter")
            | None => ret tt
            end;
          do c <- gets client;
          let allTokens := IncomingDialTokens X (wheel c) (Username c) (mb_Round v) (IntentMax X) in
          do _ <- scanUsers filter (mb_Round v) allTokens;
          do _ <- update (λ c, set_wheel (EraseKeys X (wheel c) (mb_Round v)) c);
          do err <- persistKeywheel;
          match err with
          | Some e => panic e
          | None => ret tt
          end
      end
  end.

(** *** Loading a client: the other half of the persistence code *)

Definition friendOf (friend : persistedFriend) : Friend :=
  {| fr_Username := pf_Username friend;
     fr_LongTermKey := pf_LongTermKey friend;
     extraData := ExtraData friend |}.

(** [c.loadStateLocked(st)]: the persisted fields of [c] are overwritten
    from [st], everything else of [c] stays.  The back pointers
    [req.client] and [friend.client] that the source sets to [c] are not
    part of the model's records. *)
Definition loadStateLocked (c : Client) (st : persistedState) : Client :=
  {| Username := ps_Username st;
     LongTermPublicKey := ps_LongTermPublicKey st;
     LongTermPrivateKey := ps_LongTermPrivateKey st;
     ConnectionSettings := ps_ConnectionSettings st;
     ClientPersistPath := ClientPersistPath c;
     KeywheelPersistPath := KeywheelPersistPath c;
     incomingFriendRequests := IncomingFriendRequests st;
     outgoingFriendRequests := OutgoingFriendRequests st;
     sentFriendRequests := SentFriendRequests st;
     friends := friendOf <$> Friends st;
     registrations := Registrations st;
     wheel := wheel c;
     dialingRounds := dialingRounds c;
     dialingConfig := dialingConfig c;
     dialingConfigHash := dialingConfigHash c;
     lastDialingRound := lastDialingRound c;
     outgoingCalls := outgoingCalls c |}.

(** The composite literal [&Client{ClientPersistPath: path}]: every other
    field has the zero value of its type; [settings], [noWheel] and
    [noConfig] are the zero values of the three types the model leaves
    open. *)
Definition freshClient (settings : ConnectionSettingsT X) (noWheel : Wheel X)
    (noConfig : SignedConfig X) (clientPersistPath : string) : Client :=
  {| Username := "";
     LongTermPublicKey := [];
     LongTermPrivateKey := [];
     ConnectionSettings := settings;
     ClientPersistPath := clientPersistPath;
     KeywheelPersistPath := "";
     incomingFriendRequests := [];
     outgoingFriendRequests := [];
     sentFriendRequests := [];
     friends := ∅;
     registrations := ∅;
     wheel := noWheel;
     dialingRounds := ∅;
     dialingConfig := noConfig;
     dialingConfigHash := "";
     lastDialingRound := 0;
     outgoingCalls := [] |}.

(** The error of [ioutil.ReadFile] on a path that holds no file. *)
Definition errNotExist : string := "no such file or directory".

(** [LoadClient(clientPersistPath)], reading from [files]; [json_Unmarshal]
    is [json.Unmarshal] into a [persistedState]. *)
Definition LoadClient (json_Unmarshal : bytes → string + persistedState)
    (settings : ConnectionSettingsT X) (noWheel : Wheel X) (noConfig : SignedConfig X)
    (files : gmap string bytes) (clientPersistPath : string) : string + Client :=
  match files !! clientPersistPath with
  | None => inl errNotExist
  | Some clientData =>
      match json_Unmarshal clientData with
      | inl err => inl err
      | inr st =>
          inr (loadStateLocked (freshClient settings noWheel noConfig clientPersistPath) st)
      end
  end.

(** *** The handlers as the coordinator connection sees them *)

Record RoundError : Type := { re_Round : N; Err : string }.

(** [dialingRoundError] writes to the process log and touches nothing of
    the client. *)
Definition dialingRoundError (v : RoundError) : M State unit := ret tt.

(** A message of the coordinator: the name it is sent under and its body. *)
Inductive Message : Type :=
| msg_newround (v : NewRound)
| msg_mix (v : MixRound)
| msg_mailbox (v : MailboxURL)
| msg_error (v : RoundError).

(** The map that [dialingMux] builds, applied to a message. *)
Definition dialingMux (msg : Message) : M State unit :=
  match msg with
  | msg_newround v => newDialingRound v
  | msg_mix v => sendDialingOnion v
  | msg_mailbox v => scanBloomFilter v
  | msg_error v => dialingRoundError v
  end.

End WithEnv.
End WithExternals.

Arguments st_Round {X} _.
Arguments Config {X} _.
Arguments ConfigParent {X} _.
Arguments Username {X} _.
Arguments LongTermPublicKey {X} _.
Arguments LongTermPrivateKey {X} _.
Arguments ConnectionSettings {X} _.
Arguments ClientPersistPath {X} _.
Arguments KeywheelPersistPath {X} _.
Arguments incomingFriendRequests {X} _.
Arguments outgoingFriendRequests {X} _.
Arguments sentFriendRequests {X} _.
Arguments friends {X} _.
Arguments registrations {X} _.
Arguments wheel {X} _.
Arguments dialingRounds {X} _.
Arguments dialingConfig {X} _.
Arguments dialingConfigHash {X} _.
Arguments lastDialingRound {X} _.
Arguments outgoingCalls {X} _.
Arguments client {X} _.
Arguments disk {X} _.
Arguments trace {X} _.
Arguments FetchAndVerifyChain {X} _.
Arguments fetchMailbox {X} _.
Arguments json_MarshalIndent {X} _.
Arguments writeFault {X} _.
Arguments HandlerError {X} _.
Arguments HandlerNewConfig {X} _.
Arguments HandlerSendingCall {X} _.
Arguments HandlerReceivedCall {X} _.
Arguments ConnSend {X} _ _.
Arguments CallFetchAndVerifyChain {X} _ _.
Arguments CallFetchMailbox {X} _ _ _.
Arguments WriteFile {X} _ _ _.

End Dialing.

(** ** What the specification says, in its own words *)

Module PKGSpec.
Import PKG.

Section Checks.
Context (X : Externals) (env : Env) (srv : Server X) (w : World) (args : extractArgs).

Definition round_known (st : roundState X) : Prop :=
  rounds srv !! args_Round args = Some st.

Definition key_length_ok : Prop :=
  length (UserLongTermKey args) = PublicKeySize.

Definition username_resolves (id : bytes) : Prop :=
  UsernameToIdentity X (args_Username args) = inr id.

Definition user_found (id : bytes) (user : userState) : Prop :=
  getFault env = None ∧
  ∃ data, db w !! dbUserKey X id registrationSuffix = Some data ∧
          item_Value X env data = inr user.

Definition user_lookup_io_error (id : bytes) : Prop :=
  is_Some (getFault env) ∨
  ∃ data e, db w !! dbUserKey X id registrationSuffix = Some data ∧
            item_Value X env data = inl e.

(** The ordered checks of section 4.D: which error kind the first failing
    check gives.  Every rule asks the checks listed before it to pass and
    says nothing of the fields that later checks read. *)
Inductive first_failing_check : ErrorCode → Prop :=
| round_lookup_fails :
    rounds srv !! args_Round args = None →
    first_failing_check ErrRoundNotFound
| key_length_fails st :
    round_known st → ¬ key_length_ok →
    first_failing_check ErrInvalidUserLongTermKey
| username_fails st e :
    round_known st → key_length_ok →
    UsernameToIdentity X (args_Username args) = inl e →
    first_failing_check ErrInvalidUsername
| user_absent st id :
    round_known st → key_length_ok → username_resolves id →
    getFault env = None →
    db w !! dbUserKey X id registrationSuffix = None →
    first_failing_check ErrNotRegistered
| user_lookup_fails st id :
    round_known st → key_length_ok → username_resolves id →
    user_lookup_io_error id →
    first_failing_check ErrDatabaseError
| signature_fails st id user :
    round_known st → key_length_ok → username_resolves id →
    user_found id user →
    extractArgs_Verify X args (LoginKey user) = Returned false →
    first_failing_check ErrInvalidSignature
| audit_write_fails st id user e :
    round_known st → key_length_ok → username_resolves id →
    user_found id user →
    extractArgs_Verify X args (LoginKey user) = Returned true →
    updateFault env = Some e →
    first_failing_check ErrDatabaseError.

End Checks.

Section Preimages.
Context (X : Externals).






End Preimages.

(** The number that four big-endian bytes spell. *)
Definition uint32_of (bs : bytes) : N := foldl (λ acc b, acc * 256 + Byte.to_N b)%N 0%N bs.

Section Signatures.
Context (X : Externals).

(** [privateKey] and [publicKey] are a key pair of the signature scheme:
    what the one signs the other verifies. *)
Definition key_pair (privateKey publicKey : bytes) : Prop :=
  ∀ m, ed25519_Verify X publicKey m (ed25519_Sign X privateKey m) = true.

End Signatures.
End PKGSpec.

(** ** Concrete instances, for running the model *)

Module PKGDemo.
Import PKG.

(** A username of 1 to 64 bytes, padded with zero bytes to 64. *)
Definition identityOf (username : string) : string + bytes :=
  let b := list_byte_of_string username in
  if decide (0 < length b ≤ 64)%nat then inr (b ++ replicate (64 - length b) x00)
  else inl "invalid username".

(** Stand-ins for the libraries: keys are byte strings, a BLS public key
    is its own binary encoding, and a signature is the key followed by the
    message. *)
Definition toy : Externals := {|
  MasterPrivateKey := bytes;
  blsPrivateKey := bytes;
  blsPublicKey := bytes;
  blsSignature := bytes;
  UsernameToIdentity := identityOf;
  dbUserKey := λ id suffix,
    id ++ match suffix with registrationSuffix => [x01] | lastExtractionSuffix => [x02] end;
  userState_Unmarshal := λ data,
    if decide (length data = 32%nat) then inr {| LoginKey := data |}
    else inl "short user record";
  lastExtraction_Marshal := λ le, be32 (le_Round le) ++ be32 (Z.to_N (UnixTime le));
  ed25519_Sign := λ key msg, key ++ msg;
  ed25519_Verify := λ key msg sig, bool_decide (sig = key ++ msg);
  ibe_Extract := λ msk id, msk ++ id;
  box_Seal := λ msg nonce peer priv, msg ++ replicate 16 x00;
  bls_Sign := λ sk msg, sk ++ msg;
  bls_MarshalBinary := λ k, k;
|}.

Definition idOf (username : string) : bytes :=
  match identityOf username with inr id => id | inl _ => [] end.

Definition aliceKey : bytes := replicate 32 x0a.

Definition round7 : roundState toy :=
  Build_roundState toy (replicate 32 x4d) (replicate 32 x42) (Some (replicate 128 x50)).

Definition srv : Server toy :=
  {| rounds := {[ 7%N := round7 ]};
     publicKey := replicate 32 x53;
     privateKey := replicate 32 x53 |}.

Definition world0 : World :=
  {| db := {[ dbUserKey toy (idOf "alice") registrationSuffix := aliceKey ]};
     clock := 1000;
     log := [] |}.

Definition calm : Env :=
  {| getFault := None;
     valueFault := None;
     updateFault := None;
     generateKey := inr (replicate 32 x45, replicate 32 x65);
     updateLatency := 2;
     generateLatency := 1 |}.

Definition unsigned (returnKey : option bytes) : extractArgs :=
  {| args_Round := 7;
     args_Username := "alice";
     ReturnKey := returnKey;
     UserLongTermKey := replicate 32 x03;
     ServerSigningKey := publicKey srv;
     args_Signature := [] |}.

(** Scenario 1 of the specification, signed with alice's login key. *)
Definition request : extractArgs :=
  let a := unsigned (Some (replicate 32 x02)) in
  {| args_Round := args_Round a;
     args_Username := args_Username a;
     ReturnKey := ReturnKey a;
     UserLongTermKey := UserLongTermKey a;
     ServerSigningKey := ServerSigningKey a;
     args_Signature :=
       match extractArgs_msg toy a with
       | Returned m => ed25519_Sign toy aliceKey m
       | Panicked _ => []
       end |}.

(** The same request, addressed to a server with another key. *)
Definition requestToOtherServer : extractArgs :=
  {| args_Round := args_Round request;
     args_Username := args_Username request;
     ReturnKey := ReturnKey request;
     UserLongTermKey := UserLongTermKey request;
     ServerSigningKey := replicate 32 x54;
     args_Signature := args_Signature request |}.

(** The same request as a JSON body without [ReturnKey] decodes. *)
Definition requestWithoutReturnKey : extractArgs := unsigned None.


(** A reply to "alice" for round 7, before it is signed. *)
Definition unsignedReply : extractReply toy :=
  Build_extractReply toy 7 "alice" (replicate 32 x45 ++ replicate 112 xcc) [] None.

(** Scenario 1, run. *)
Definition served : Outcome (option (extractReply toy) * option Error) * World :=
  extract toy calm srv request world0.

Definition replied : option (extractReply toy) * option Error :=
  match served.1 with
  | Returned result => result
  | Panicked _ => (None, None)
  end.

Definition world1 : World := served.2.

End PKGDemo.

Module DialingSpec.
Import Dialing.

Section Scan.
Context (X : Externals) (env : Env X).

(** The state with more events in its log. *)
Definition logged (s : State X) (events : list (Event X)) : State X :=
  {| client := client s; disk := disk s; trace := trace s ++ events |}.

(** The calls one sender's tokens announce under a filter: one for each
    intent whose token tests positive, in the order of the intents. *)
Definition callsFrom (filter : Filter X) (w : Wheel X) (round : N) (first : nat)
    (user : UserDialTokens) : list IncomingCall :=
  omap id
    (imap (λ i token,
             if Test X filter token then
               Some {| ic_Username := FromUsername user;
                       ic_Intent := first + i;
                       SessionKey := wheel_SessionKey X w (FromUsername user) round |}
             else None)
          (Tokens user)).

Definition receivedCalls (filter : Filter X) (w : Wheel X) (round : N)
    (allTokens : list UserDialTokens) : list IncomingCall :=
  allTokens ≫= callsFrom filter w round 0.

(** What section 4.F asks of the mailbox handler once it holds a filter:
    report the calls the filter announces, erase the round's keys from the
    wheel, persist the erased wheel, and crash if that fails. *)
Definition afterDecode (v : MailboxURL) (filter : Filter X) (s : State X)
    : Outcome unit * State X :=
  let c := client s in
  let allTokens := IncomingDialTokens X (wheel c) (Username c) (mb_Round v) (IntentMax X) in
  let calls := receivedCalls filter (wheel c) (mb_Round v) allTokens in
  let erased := EraseKeys X (wheel c) (mb_Round v) in
  let s1 := {| client := set_wheel X erased c;
               disk := disk s;
               trace := trace s ++ (HandlerReceivedCall <$> calls) |} in
  match wheel_MarshalBinary X erased with
  | inl e => (Panicked e, s1)
  | inr data =>
      match writeFault env (KeywheelPersistPath c) data with
      | Some e => (Panicked e, logged s1 [WriteFile (KeywheelPersistPath c) data false])
      | None =>
          (Returned tt,
           {| client := client s1;
              disk := <[KeywheelPersistPath c := data]> (disk s1);
              trace := trace s1 ++ [WriteFile (KeywheelPersistPath c) data true] |})
      end
  end.

(** The key wheel cannot be persisted after the keys of [round] are erased. *)
Definition keywheel_persist_fails (s : State X) (round : N) (e : string) : Prop :=
  let erased := EraseKeys X (wheel (client s)) round in
  wheel_MarshalBinary X erased = inl e ∨
  ∃ data, wheel_MarshalBinary X erased = inr data ∧
          writeFault env (KeywheelPersistPath (client s)) data = Some e.

(** The claim on missing signatures, as it is worded: every mix event on
    a configured round that carries fewer signatures than the round has
    mixers ends in an out-of-range access. *)
Definition short_signatures_always_panic : Prop :=
  ∀ (v : MixRound) (s : State X) (st : dialingRoundState X),
    dialingRounds (client s) !! rs_Round (MixSettings v) = Some st →
    length (MixSignatures v) < length (MixServers (Config st)) →
    ∃ s', sendDialingOnion X v s = (Panicked indexOutOfRange, s').

(** The paths of the files an operation wrote or tried to write. *)
Definition writtenPaths (events : list (Event X)) : list string :=
  omap (λ e, match e with WriteFile path _ _ => Some path | _ => None end) events.

End Scan.

Section Rounds.
Context (X : Externals).

(** Every recorded round state is filed under its own round and carries
    the dialing configuration that its parent holds. *)
Definition rounds_consistent (c : Client X) : Prop :=
  ∀ round st, dialingRounds c !! round = Some st →
              st_Round st = round ∧ Inner X (ConfigParent st) = InnerDialing (Config st).

(** The cached hash is the hash of the cached configuration. *)
Definition cache_coherent (c : Client X) : Prop :=
  Hash X (dialingConfig c) = dialingConfigHash c.

(** The configuration service answers a request for a hash with a chain
    whose first configuration has that hash. *)
Definition chain_ends_at_request (env : Env X) : Prop :=
  ∀ have want configs,
    FetchAndVerifyChain env have want = inr configs →
    ∃ newest older, configs = newest :: older ∧ Hash X newest = want.

(** The messages of a connection handled in arrival order; a panic ends
    the run. *)
Fixpoint deliver (env : Env X) (msgs : list Message) : M (State X) unit :=
  match msgs with
  | [] => ret tt
  | msg :: rest =>
      do _ <- dialingMux X env msg;
      deliver env rest
  end.

(** The client once [newDialingRound] has adopted a fetched configuration,
    before it persists. *)
Definition adopted (s : State X) (newConfig : SignedConfig X) (configs : list (SignedConfig X))
    (v : NewRound) : State X :=
  {| client := set_dialingConfig X newConfig (ConfigHash v) (client s);
     disk := disk s;
     trace := trace s ++ [CallFetchAndVerifyChain (dialingConfig (client s)) (ConfigHash v);
                          HandlerNewConfig configs] |}.

End Rounds.
End DialingSpec.

Module DialingDemo.
Import Dialing.

(** A wheel as the tokens it still holds, round by round. *)
Abbreviation ToyWheel := (list (N * list UserDialTokens)).

Definition tokensAt (w : ToyWheel) (round : N) : list UserDialTokens :=
  w ≫= (λ entry, if decide (entry.1 = round) then entry.2 else []).

Definition eraseUpTo (w : ToyWheel) (round : N) : ToyWheel :=
  filter (λ entry, (round < entry.1)%N) w.

(** Stand-ins for the packages: a signed configuration is its hash and
    its inner configuration, a filter is the list of tokens it holds, a
    signature is the key followed by the message. *)
Definition toy : Externals := {|
  SignedConfig := string * InnerConfig;
  ConnectionSettingsT := unit;
  IncomingFriendRequest := unit;
  OutgoingFriendRequest := unit;
  sentFriendRequest := unit;
  pkgClient := unit;
  Wheel := ToyWheel;
  Filter := list bytes;
  Inner := snd;
  Hash := fst;
  IntentMax := 3;
  IncomingDialTokens := λ w _ round _, tokensAt w round;
  wheel_SessionKey := λ _ from round, be32 round ++ list_byte_of_string from;
  EraseKeys := eraseUpTo;
  wheel_MarshalBinary := λ w, inr (w ≫= (λ entry, be32 entry.1));
  newFilter := [];
  UnmarshalBinary := λ f data,
    if decide (length data < 4)%nat then (f, Some "short data") else ([drop 4 data], None);
  Test := λ f token, bool_decide (token ∈ f);
  ServiceData_Unmarshal := λ data,
    match data with
    | [b] => inr {| sd_NumMailboxes := Byte.to_N b |}
    | _ => inl "bad service data"
    end;
  SigningMessage := λ settings, be32 (rs_Round settings) ++ RawServiceData settings;
  ed25519_Verify := λ key msg sig, bool_decide (sig = key ++ msg);
  base32_EncodeToString := string_of_list_byte;
  usernameToMailbox := λ _ n, if decide (n = 0%N) then 0%N else 1%N;
  computeKeys_token := λ _ _, replicate 32 x07;
  mustMarshal := λ m, be32 (Mailbox m) ++ Token m;
  ForwardNonce := λ round, be32 round ++ replicate 20 x00;
  onionbox_Seal := λ msg _ keys, msg ++ concat keys;
|}.

Definition mixer (b : byte) : ServerConfig :=
  {| Key := replicate 32 b; Address := "mix" |}.

Definition threeMixers : DialingConfig :=
  {| MixServers := [mixer x01; mixer x02; mixer x03];
     CDNServer := {| Key := replicate 32 x0c; Address := "cdn" |} |}.

Definition configH1 : SignedConfig toy := ("H1", InnerDialing threeMixers).

Definition token (b : byte) : bytes := replicate 32 b.

(** Alice's tokens for round 5, one per intent. *)
Definition wheel0 : ToyWheel :=
  [(5%N, [{| FromUsername := "alice"; Tokens := [token xa0; token xa1; token xa2] |}]);
   (6%N, [{| FromUsername := "alice"; Tokens := [token xb0; token xb1; token xb2] |}])].

Definition bob : Client toy :=
  Build_Client toy "bob" (replicate 32 x0b) (replicate 64 x0b) tt
    "client.json" "keywheel.bin" [] [] [] ∅ ∅
    wheel0 ∅ configH1 "H1" 0 [].

Definition start : State toy := Build_State toy bob ∅ [].

(** The network answers with a filter that holds alice's token for intent
    2, the encoder and the disk work. *)
Definition net : Env toy :=
  Build_Env toy
    (λ _ _, inl "no such config")
    (λ _ _ _, inr (be32 1 ++ token xa2))
    (λ _, inr (list_byte_of_string "{}"))
    (λ _ _, None).

(** The same, with a mailbox too short to hold a filter. *)
Definition netShortMailbox : Env toy :=
  Build_Env toy
    (λ _ _, inl "no such config")
    (λ _ _ _, inr [x00])
    (λ _, inr (list_byte_of_string "{}"))
    (λ _ _, None).

(** The client after [newround(Round=5, Hash=H1)]. *)
Definition configured : State toy :=
  (newDialingRound toy net {| nr_Round := 5; ConfigHash := "H1" |} start).2.

Definition settings5 : RoundSettings :=
  {| Service := "Dialing"; rs_Round := 5; OnionKeys := [token x0e]; RawServiceData := [x04] |}.

Definition signed (m : ServerConfig) : bytes := Key m ++ SigningMessage toy settings5.

Definition mix5 (signatures : list bytes) : MixRound :=
  {| MixSettings := settings5; MixSignatures := signatures |}.

(** Scenario 5: three mixers, the second signature tampered with. *)
Definition tampered : MixRound := mix5 [signed (mixer x01); [xff]; signed (mixer x03)].

(** One signature for three mixers, and it does not verify. *)
Definition shortAndBad : MixRound := mix5 [[xff]].

(** Two valid signatures for three mixers. *)
Definition shortButValid : MixRound := mix5 [signed (mixer x01); signed (mixer x02)].

Definition mailbox5 : MailboxURL := {| mb_Round := 5; URL := "https://cdn/5"; NumMailboxes := 1 |}.

(** The coordinator announces round 5 again, under another hash. *)
Definition announceH2 : NewRound := {| nr_Round := 5; ConfigHash := "H2" |}.

(** The round state that [configured] holds for round 5. *)
Definition round5 : dialingRoundState toy := Build_dialingRoundState toy 5 threeMixers configH1.

(** Scenario 6, run. *)
Definition scanned : State toy := (scanBloomFilter toy net mailbox5 configured).2.

(** All three signatures of round 5 in order. *)
Definition validMix : MixRound :=
  mix5 [signed (mixer x01); signed (mixer x02); signed (mixer x03)].

Definition carol : OutgoingCall := {| oc_Username := "carol"; oc_Intent := 1; sentRound := 0 |}.

Definition dave : OutgoingCall := {| oc_Username := "dave"; oc_Intent := 0; sentRound := 0 |}.

(** The configured client with two calls queued, carol's first. *)
Definition calling : State toy :=
  Build_State toy (set_outgoingCalls toy [carol; dave] (client configured))
    (disk configured) (trace configured).

Definition sent : Outcome unit * State toy := sendDialingOnion toy validMix calling.

(** A second configuration, under the hash H2, with a single mixer. *)
Definition configH2 : SignedConfig toy :=
  ("H2", InnerDialing {| MixServers := [mixer x09]; CDNServer := CDNServer threeMixers |}).

(** A configuration service that knows the chain up to H2. *)
Definition netH2 : Env toy :=
  Build_Env toy
    (λ _ want, if decide (want = "H2") then inr [configH2] else inl "no such config")
    (λ _ _ _, inr (be32 1 ++ token xa2))
    (λ _, inr (list_byte_of_string "{}"))
    (λ _ _, None).

(** A configuration service that answers with an empty chain. *)
Definition netEmptyChain : Env toy :=
  Build_Env toy
    (λ _ _, inr [])
    (λ _ _ _, inr (be32 1 ++ token xa2))
    (λ _, inr (list_byte_of_string "{}"))
    (λ _ _, None).

(** The client after [newround(Round=5, Hash=H2)] under [netH2]. *)
Definition reconfigured : State toy := (newDialingRound toy netH2 announceH2 start).2.

(** What the coordinator sends after the first [newround] of round 5. *)
Definition session : list Message :=
  [msg_mix validMix; msg_mailbox mailbox5; msg_newround announceH2;
   msg_error {| re_Round := 5; Err := "late" |};
   msg_newround {| nr_Round := 6; ConfigHash := "H1" |}].

Definition ran : Outcome unit * State toy := DialingSpec.deliver toy net session configured.

Definition persisted : State toy := (persistLocked toy net configured).2.

(** A decoder that knows the one document the toy encoder writes. *)
Definition readBack (data : bytes) : string + persistedState toy :=
  if decide (data = list_byte_of_string "{}") then inr (persistedStateOf toy bob)
  else inl "unexpected end of JSON input".

End DialingDemo.

(** ** Properties of the PKG server *)

Module PKGProps.
Import PKG PKGSpec.

(** Unfolds one call of [extract] down to the state-passing functions. *)
Ltac run_extract :=
  unfold extractHandler, extract, getUser, tx_Get, db_Update, time_Now, box_GenerateKey,
    emit, elapse, Go.bind, Go.ret, Go.gets, Go.modify, Go.lift, Go.panic in *;
  simpl in *.

(** Splits on an innermost scrutinee of a [match] in a hypothesis, until
    none is left. *)
Ltac split_run H :=
  repeat match type of H with
         | context [match ?x with _ => _ end] =>
             lazymatch x with
             | context [match _ with _ => _ end] => fail
             | _ => destruct x eqn:?; simpl in H
             end
         end.

Section Extract.
Context (X : Externals) (env : Env) (srv : Server X).

Lemma length_check_true (args : extractArgs) :
  negb (length (UserLongTermKey args) =? PublicKeySize)%nat = false ↔ key_length_ok args.
Proof.
  unfold key_length_ok. rewrite negb_false_iff. apply Nat.eqb_eq.
Qed.

Lemma length_check_false (args : extractArgs) :
  negb (length (UserLongTermKey args) =? PublicKeySize)%nat = true ↔ ¬ key_length_ok args.
Proof.
  unfold key_length_ok. rewrite negb_true_iff. apply Nat.eqb_neq.
Qed.

(** C1. Extraction atomicity: a call of [extract] that returns an error
    returns no reply; a call that returns a reply has read the clock at
    [t], committed [{args.Round, t}] under the identity's lastExtraction
    key before it drew the ephemeral key the reply is built from, left
    that record in the store, and returns no earlier than [t]. *)
Theorem extract_atomicity (args : extractArgs) (w w' : World)
    (reply : option (extractReply X)) (err : option Error) :
  extract X env srv args w = (Returned (reply, err), w') →
  (is_Some err → reply = None) ∧
  (is_Some reply →
   err = None ∧
   ∃ id t,
     UsernameToIdentity X (args_Username args) = inr id ∧
     let key := dbUserKey X id lastExtractionSuffix in
     let value := lastExtraction_Marshal X {| le_Round := args_Round args; UnixTime := t |} in
     db w' !! key = Some value ∧
     (t ≤ clock w')%Z ∧
     log w' = log w ++ [EvGet (dbUserKey X id registrationSuffix); EvNow t;
                        EvCommit key value; EvGenerateKey]).
Proof.
  intros Hrun. run_extract. split_run Hrun; simplify_eq;
    (split; [ intros [? ?]; try reflexivity; discriminate
            | intros [? ?]; try discriminate ]).
  split; [reflexivity|].
  eexists _, (clock w). split; [reflexivity|]. simpl.
  split; [apply lookup_insert_eq|]. split; [lia|].
  rewrite <- !app_assoc. reflexivity.
Qed.

(** C2. Ordered checks and error taxonomy: [extract] returns an error of
    kind [code] exactly when [code] is the kind of the first failing check
    in the order round lookup, long-term-key length, username resolution,
    user lookup, signature verification, audit write. *)
Theorem extract_error_taxonomy (args : extractArgs) (w : World) (code : ErrorCode) :
  first_failing_check X env srv w args code ↔
  ∃ err w', extract X env srv args w = (Returned (None, Some err), w') ∧ Code err = code.
Proof.
  split.
  - intros Hfail.
    destruct Hfail as
      [ Hround | st Hround Hlen | st e Hround Hlen Hname
      | st id Hround Hlen Hname Hget Hdb | st id Hround Hlen Hname Hio
      | st id user Hround Hlen Hname Hfound Hsig
      | st id user e Hround Hlen Hname Hfound Hsig Hupd ];
      unfold round_known, username_resolves in *;
      try apply length_check_true in Hlen; try apply length_check_false in Hlen;
      run_extract; rewrite Hround; simpl; rewrite ?Hlen; simpl.
    + eauto.
    + eauto.
    + rewrite Hname. eauto.
    + rewrite Hname, Hget. simpl. rewrite Hdb. eauto.
    + rewrite Hname. destruct Hio as [[e He] | (data & e & Hdb & Hval)].
      * rewrite He. eauto.
      * destruct (getFault env) as [e'|]; simpl; [eauto|].
        rewrite Hdb, Hval. eauto.
    + destruct Hfound as (Hget & data & Hdb & Hval).
      rewrite Hname, Hget. simpl. rewrite Hdb, Hval, Hsig. simpl. eauto.
    + destruct Hfound as (Hget & data & Hdb & Hval).
      rewrite Hname, Hget. simpl. rewrite Hdb, Hval, Hsig. simpl. rewrite Hupd. eauto.
  - intros (err & w' & Hrun & <-). run_extract. split_run Hrun; simplify_eq; simpl;
      try match goal with H : negb _ = true |- _ => apply length_check_false in H end;
      try match goal with H : negb _ = false |- _ => apply length_check_true in H end.
    all: unfold round_known, username_resolves, user_found, user_lookup_io_error in *.
    all: try match goal with
             | H : negb ?a = _ |- _ => is_var a; destruct a; try discriminate H
             end.
    all: first
      [ solve [eapply round_lookup_fails; eauto]
      | solve [eapply key_length_fails; eauto]
      | solve [eapply username_fails; eauto]
      | solve [eapply user_absent; eauto]
      | solve [eapply signature_fails; unfold user_found; eauto 10]
      | solve [eapply audit_write_fails; unfold user_found; eauto 10]
      | solve [eapply user_lookup_fails; unfold user_lookup_io_error; eauto 10] ].
Qed.

(** C8. Totality in [ReturnKey]: for a request that passes the round,
    key-length, username and registration checks, [extract] (and the
    handler that calls it on the decoded body) dereferences a nil
    [ReturnKey] in the signature check and panics; so it returns only if
    [ReturnKey] is present, and with [ReturnKey] present it does return
    when key generation succeeds and the round holds its BLS public key. *)
Theorem extract_requires_ReturnKey (args : extractArgs) (w : World)
    (st : roundState X) (id : bytes) (user : userState) :
  round_known X srv args st →
  key_length_ok args →
  username_resolves X args id →
  user_found X env w id user →
  (ReturnKey args = None →
   (∃ w', extract X env srv args w = (Panicked nilDeref, w')) ∧
   (∃ w', extractHandler X env srv (inr args) w = (Panicked nilDeref, w'))) ∧
  ((∃ result w', extract X env srv args w = (Returned result, w')) →
   is_Some (ReturnKey args)) ∧
  (is_Some (ReturnKey args) →
   is_Some (rs_blsPublicKey st) →
   (∃ keys, generateKey env = inr keys) →
   ∃ result w', extract X env srv args w = (Returned result, w')).
Proof.
  unfold round_known, username_resolves.
  intros Hround Hlen Hname (Hget & data & Hdb & Hval).
  apply length_check_true in Hlen.
  assert (Hnil : ReturnKey args = None →
                 ∃ w', extract X env srv args w = (Panicked nilDeref, w')).
  { intros Hkey. run_extract. rewrite Hround. simpl. rewrite Hlen, Hname, Hget. simpl.
    rewrite Hdb, Hval. unfold extractArgs_Verify, extractArgs_msg, ValidUsernameToIdentity.
    rewrite Hname, Hkey. simpl. eauto. }
  split; [|split].
  - intros Hkey. split; [auto|].
    run_extract. rewrite Hround. simpl. rewrite Hlen, Hname, Hget. simpl.
    rewrite Hdb, Hval. unfold extractArgs_Verify, extractArgs_msg, ValidUsernameToIdentity.
    simpl. rewrite Hname, Hkey. simpl. eauto.
  - intros (result & w' & Hrun). destruct (ReturnKey args) as [returnKey|] eqn:Hkey; [eauto|].
    destruct (Hnil eq_refl) as [w'' Hpanic]. congruence.
  - intros [returnKey Hkey] [blsKey Hbls] [[boxPublic boxPrivate] Hgen].
    run_extract. rewrite Hround. simpl. rewrite Hlen, Hname, Hget. simpl.
    rewrite Hdb, Hval. unfold extractArgs_Verify, extractArgs_msg, ValidUsernameToIdentity.
    rewrite Hname, Hkey. simpl.
    destruct (ed25519_Verify X _ _ _); simpl; [|eauto].
    destruct (updateFault env); simpl; [eauto|].
    rewrite Hgen. simpl. unfold Attestation_Marshal. simpl. rewrite Hbls. simpl.
    unfold extractReply_Sign, extractReply_msg, ValidUsernameToIdentity. simpl.
    rewrite Hname. simpl. eauto.
Qed.

End Extract.

Section Preimages.
Context (X : Externals).


(** X21. The tags alone separate the two signed messages of the exchange:
    the preimage of an [extractArgs] and that of an [extractReply] are
    never equal, whatever their fields. *)
Theorem tagged_preimages_differ (a : extractArgs) (r : extractReply X) (ma mr : bytes) :
  extractArgs_msg X a = Returned ma →
  extractReply_msg X r = Returned mr →
  ma ≠ mr.
Proof.
  unfold extractArgs_msg, extractReply_msg. intros Ha Hr.
  destruct (ValidUsernameToIdentity X (args_Username a)); [|discriminate].
  destruct (ReturnKey a); [|discriminate].
  destruct (ValidUsernameToIdentity X (reply_Username r)); [|discriminate].
  simplify_eq. simpl. intros Heq. discriminate Heq.
Qed.

(** X4. Server binding of the signed message: two requests that name
    different server keys of one length have different preimages, whatever
    their other fields. *)
Theorem server_key_in_preimage (a a' : extractArgs) (m m' : bytes) :
  length (ServerSigningKey a) = length (ServerSigningKey a') →
  ServerSigningKey a ≠ ServerSigningKey a' →
  extractArgs_msg X a = Returned m →
  extractArgs_msg X a' = Returned m' →
  m ≠ m'.
Proof.
  unfold extractArgs_msg. intros Hlen Hkeys Ha Ha'.
  destruct (ValidUsernameToIdentity X (args_Username a)); [|discriminate].
  destruct (ReturnKey a); [|discriminate].
  destruct (ValidUsernameToIdentity X (args_Username a')); [|discriminate].
  destruct (ReturnKey a'); [|discriminate].
  injection Ha as <-. injection Ha' as <-. intros Heq.
  apply (f_equal (drop 11)) in Heq. simpl in Heq.
  apply app_inj_1 in Heq; [|exact Hlen].
  by destruct Heq.
Qed.

End Preimages.

Section Encoding.

Lemma byte_of_N_value (n : N) : Byte.to_N (byte_of_N n) = (n mod 256)%N.
Proof.
  unfold byte_of_N.
  destruct (Byte.of_N (n mod 256)) as [b|] eqn:Hb.
  - simpl. by apply Byte.to_of_N.
  - apply Byte.of_N_None_iff in Hb.
    pose proof (N.mod_upper_bound n 256). lia.
Qed.

Lemma be32_length (r : N) : length (be32 r) = 4.
Proof. reflexivity. Qed.

Lemma be32_round_trip (r : N) : (r < 2 ^ 32)%N → uint32_of (be32 r) = r.
Proof.
  intros Hr. unfold uint32_of, be32. simpl. rewrite !byte_of_N_value.
  change (2 ^ 24)%N with (256 * 256 * 256)%N.
  change (2 ^ 16)%N with (256 * 256)%N.
  change (2 ^ 8)%N with 256%N.
  change (2 ^ 32)%N with 4294967296%N in Hr.
  rewrite <- !N.Div0.div_div.
  pose proof (N.div_mod r 256) as H0.
  pose proof (N.div_mod (r / 256) 256) as H1.
  pose proof (N.div_mod (r / 256 / 256) 256) as H2.
  pose proof (N.mod_upper_bound r 256) as B0.
  pose proof (N.mod_upper_bound (r / 256) 256) as B1.
  pose proof (N.mod_upper_bound (r / 256 / 256) 256) as B2.
  set (q1 := (r / 256)%N) in *. set (m0 := (r mod 256)%N) in *.
  set (q2 := (q1 / 256)%N) in *. set (m1 := (q1 mod 256)%N) in *.
  set (q3 := (q2 / 256)%N) in *. set (m2 := (q2 mod 256)%N) in *.
  rewrite (N.mod_small q3 256) by lia.
  lia.
Qed.

Lemma be32_inj (r r' : N) :
  (r < 2 ^ 32)%N → (r' < 2 ^ 32)%N → be32 r = be32 r' → r = r'.
Proof.
  intros Hr Hr' Heq.
  rewrite <- (be32_round_trip r Hr), <- (be32_round_trip r' Hr'). by rewrite Heq.
Qed.

End Encoding.

Section Framing.
Context (X : Externals).

(** X5. The preimage of an extraction request determines every field the
    signature covers: two requests with server keys of one length,
    identities and return keys of the declared widths and rounds that fit
    32 bits have the same preimage only if server key, round, identity,
    return key and long-term key are the same. *)
Theorem extractArgs_msg_injective (a a' : extractArgs) (id id' rk rk' : bytes) (m : bytes) :
  UsernameToIdentity X (args_Username a) = inr id →
  UsernameToIdentity X (args_Username a') = inr id' →
  ReturnKey a = Some rk → ReturnKey a' = Some rk' →
  length (ServerSigningKey a) = length (ServerSigningKey a') →
  length id = 64 → length id' = 64 → length rk = 32 → length rk' = 32 →
  (args_Round a < 2 ^ 32)%N → (args_Round a' < 2 ^ 32)%N →
  extractArgs_msg X a = Returned m →
  extractArgs_msg X a' = Returned m →
  ServerSigningKey a = ServerSigningKey a' ∧
  args_Round a = args_Round a' ∧
  id = id' ∧ rk = rk' ∧
  UserLongTermKey a = UserLongTermKey a'.
Proof.
  unfold extractArgs_msg, ValidUsernameToIdentity.
  intros -> -> -> -> Hssk Hid Hid' Hrk Hrk' Hr Hr' Hm Hm'.
  injection Hm as <-. injection Hm' as Heq.
  apply app_inj_1 in Heq as [Hkey Heq]; [|done].
  change (be32 (args_Round a') ++ id' ++ rk' ++ UserLongTermKey a' =
          be32 (args_Round a) ++ id ++ rk ++ UserLongTermKey a) in Heq.
  apply app_inj_1 in Heq as [Hround Heq]; [|reflexivity].
  apply app_inj_1 in Heq as [Hident Heq]; [|congruence].
  apply app_inj_1 in Heq as [Hreturn Heq]; [|congruence].
  apply be32_inj in Hround; [|done..].
  done.
Qed.

(** X6. Signing does not change what is signed: the signature is not part
    of the preimage, so a request signed with a login key verifies under
    the matching public key, and a signed copy of a signed request has the
    same signature. *)
Theorem extractArgs_Sign_Verify (a signed : extractArgs) (loginPrivate loginPublic : bytes) :
  key_pair X loginPrivate loginPublic →
  extractArgs_Sign X a loginPrivate = Returned signed →
  extractArgs_msg X signed = extractArgs_msg X a ∧
  extractArgs_Verify X signed loginPublic = Returned true ∧
  extractArgs_Sign X signed loginPrivate = Returned signed.
Proof.
  intros Hpair Hsign. unfold extractArgs_Sign in Hsign.
  destruct (extractArgs_msg X a) as [m|] eqn:Hm; [|discriminate].
  injection Hsign as <-.
  assert (Hsame : extractArgs_msg X
            {| args_Round := args_Round a; args_Username := args_Username a;
               ReturnKey := ReturnKey a; UserLongTermKey := UserLongTermKey a;
               ServerSigningKey := ServerSigningKey a;
               args_Signature := ed25519_Sign X loginPrivate m |} = Returned m).
  { rewrite <- Hm. reflexivity. }
  split; [exact Hsame|]. split.
  - unfold extractArgs_Verify. rewrite Hsame. simpl. by rewrite Hpair.
  - unfold extractArgs_Sign. rewrite Hsame. reflexivity.
Qed.

End Framing.

Section Serving.
Context (X : Externals) (env : Env) (srv : Server X).

(** X7. What [extract] does to the store: a call that returns an error
    leaves the store as it was, and whatever the outcome (a reply, an
    error, a panic) no key but the lastExtraction key of the request's
    identity changes, and the clock does not go back. *)
Theorem extract_touches_only_the_audit_record (args : extractArgs) (w w' : World)
    (outcome : Outcome (option (extractReply X) * option Error)) :
  extract X env srv args w = (outcome, w') →
  (∀ reply err, outcome = Returned (reply, Some err) → db w' = db w) ∧
  (∀ key,
     (∀ id, UsernameToIdentity X (args_Username args) = inr id →
            key ≠ dbUserKey X id lastExtractionSuffix) →
     db w' !! key = db w !! key) ∧
  (clock w ≤ clock w')%Z.
Proof.
  intros Hrun. run_extract. split_run Hrun; simplify_eq; simpl;
    (split; [intros ? ? [=]; try done|]);
    (split; [intros key Hkey;
             first [ done
                   | rewrite lookup_insert_ne; [done|]; intros <-; by eapply Hkey ]
            |lia]).
Qed.

Lemma rebuilt_args (a : extractArgs) (key : bytes) :
  ServerSigningKey a = key →
  {| args_Round := args_Round a; args_Username := args_Username a;
     ReturnKey := ReturnKey a; UserLongTermKey := UserLongTermKey a;
     ServerSigningKey := key; args_Signature := args_Signature a |} = a.
Proof. intros <-. by destruct a. Qed.

(** X8. A request signed for this server is served: if the client signed,
    with its login key, a request that names the server's public key, and
    the request passes the round, key-length, username and registration
    checks with a return key present, then (store and key generation
    working) the handler answers with a reply and no error; the reply
    echoes round and username, carries the ephemeral public key followed by
    the sealed identity key, the BLS signature of the attestation of the
    user's long-term key, and a signature that verifies under the server's
    public key. *)
Theorem extractHandler_serves_signed_request
    (unsigned args : extractArgs) (w : World) (st : roundState X) (id : bytes)
    (user : userState) (returnKey loginPrivate boxPublic boxPrivate : bytes)
    (attestKey : blsPublicKey X) :
  ServerSigningKey unsigned = publicKey srv →
  extractArgs_Sign X unsigned loginPrivate = Returned args →
  key_pair X loginPrivate (LoginKey user) →
  key_pair X (privateKey srv) (publicKey srv) →
  round_known X srv args st →
  key_length_ok args →
  username_resolves X args id →
  user_found X env w id user →
  ReturnKey args = Some returnKey →
  updateFault env = None →
  generateKey env = inr (boxPublic, boxPrivate) →
  rs_blsPublicKey st = Some attestKey →
  ∃ reply w',
    extractHandler X env srv (inr args) w = (Returned (Some reply, None), w') ∧
    reply_Round reply = args_Round args ∧
    reply_Username reply = args_Username args ∧
    EncryptedPrivateKey reply =
      boxPublic ++ box_Seal X (ibe_Extract X (masterPrivateKey st) id) zeroNonce
                     returnKey boxPrivate ∧
    IdentitySig reply =
      Some (bls_Sign X (rs_blsPrivateKey st)
              (bls_MarshalBinary X attestKey ++ id ++ UserLongTermKey args)) ∧
    extractReply_Verify X reply (publicKey srv) = Returned true.
Proof.
  unfold round_known, username_resolves.
  intros Hserver Hsigned Hlogin Hpair Hround Hlen Hname (Hget & data & Hdb & Hval)
    Hkey Hupdate Hgen Hbls.
  apply length_check_true in Hlen.
  assert (Hverify : extractArgs_Verify X args (LoginKey user) = Returned true).
  { unfold extractArgs_Sign in Hsigned.
    destruct (extractArgs_msg X unsigned) as [m|] eqn:Hm; [|discriminate].
    injection Hsigned as <-. unfold extractArgs_Verify.
    change (extractArgs_msg X _) with (extractArgs_msg X unsigned) at 1.
    rewrite Hm. simpl. by rewrite Hlogin. }
  assert (Hssk : ServerSigningKey args = publicKey srv).
  { unfold extractArgs_Sign in Hsigned.
    destruct (extractArgs_msg X unsigned); [|discriminate]. by injection Hsigned as <-. }
  unfold extractHandler. rewrite (rebuilt_args args (publicKey srv) Hssk).
  run_extract. rewrite Hround. simpl. rewrite Hlen, Hname, Hget. simpl.
  rewrite Hdb, Hval, Hverify. simpl. rewrite Hupdate. simpl. rewrite Hgen. simpl.
  rewrite Hkey. unfold Attestation_Marshal. simpl. rewrite Hbls. simpl.
  unfold extractReply_Sign, extractReply_msg, ValidUsernameToIdentity. simpl.
  rewrite Hname. simpl.
  eexists _, _. split; [reflexivity|]. simpl. repeat (split; [reflexivity|]).
  unfold extractReply_Verify, extractReply_msg, ValidUsernameToIdentity. simpl.
  rewrite Hname. simpl. by rewrite Hpair.
Qed.

End Serving.

Import PKGDemo.

Example scenario1_replies : is_Some replied.1 ∧ replied.2 = None.
Proof. vm_compute. eauto. Qed.

Example scenario2_unknown_round :
  ∃ err, extract toy calm srv
           {| args_Round := 99; args_Username := "alice"; ReturnKey := None;
              UserLongTermKey := []; ServerSigningKey := []; args_Signature := [] |}
           world0
         = (Returned (None, Some err), world0) ∧ Code err = ErrRoundNotFound.
Proof. eexists. split; reflexivity. Qed.

Example scenario3_unregistered_user :
  ∃ err w', extract toy calm srv
              {| args_Round := 7; args_Username := "ghost"; ReturnKey := None;
                 UserLongTermKey := replicate 32 x03; ServerSigningKey := [];
                 args_Signature := [] |}
              world0
            = (Returned (None, Some err), w') ∧ Code err = ErrNotRegistered ∧ db w' = db world0.
Proof. eexists _, _. split; [vm_compute; reflexivity|]. split; reflexivity. Qed.

Lemma server_key_in_preimage_witness :
  ∃ m m',
    extractArgs_msg toy request = Returned m ∧
    extractArgs_msg toy requestToOtherServer = Returned m' ∧
    m ≠ m'.
Proof.
  eexists _, _. split; [reflexivity|]. split; [reflexivity|].
  apply (server_key_in_preimage toy request requestToOtherServer).
  - reflexivity.
  - vm_compute. discriminate.
  - reflexivity.
  - reflexivity.
Defined.

Lemma toy_key_pair (key : bytes) : key_pair toy key key.
Proof. intros m. simpl. by apply bool_decide_eq_true. Qed.

Lemma extractArgs_msg_injective_witness :
  ServerSigningKey request = ServerSigningKey (unsigned (Some (replicate 32 x02))) ∧
  args_Round request = args_Round (unsigned (Some (replicate 32 x02))) ∧
  idOf "alice" = idOf "alice" ∧
  replicate 32 x02 = replicate 32 x02 ∧
  UserLongTermKey request = UserLongTermKey (unsigned (Some (replicate 32 x02))).
Proof.
  eapply (extractArgs_msg_injective toy request (unsigned (Some (replicate 32 x02)))
            (idOf "alice") (idOf "alice") (replicate 32 x02) (replicate 32 x02)).
  all: reflexivity.
Defined.

Lemma extractArgs_Sign_Verify_witness :
  extractArgs_msg toy request = extractArgs_msg toy (unsigned (Some (replicate 32 x02))) ∧
  extractArgs_Verify toy request aliceKey = Returned true ∧
  extractArgs_Sign toy request aliceKey = Returned request.
Proof.
  apply (extractArgs_Sign_Verify toy (unsigned (Some (replicate 32 x02))) request
           aliceKey aliceKey).
  - apply toy_key_pair.
  - reflexivity.
Defined.

Lemma extract_touches_only_the_audit_record_witness :
  (∀ reply err, served.1 = Returned (reply, Some err) → db world1 = db world0) ∧
  (∀ key,
     (∀ id, UsernameToIdentity toy (args_Username request) = inr id →
            key ≠ dbUserKey toy id lastExtractionSuffix) →
     db world1 !! key = db world0 !! key) ∧
  (clock world0 ≤ clock world1)%Z.
Proof.
  apply (extract_touches_only_the_audit_record toy calm srv request world0 world1 served.1).
  vm_compute. reflexivity.
Defined.

Lemma extractHandler_serves_signed_request_witness :
  ∃ reply w',
    extractHandler toy calm srv (inr request) world0 = (Returned (Some reply, None), w') ∧
    reply_Round reply = args_Round request ∧
    reply_Username reply = args_Username request ∧
    EncryptedPrivateKey reply =
      replicate 32 x45 ++ box_Seal toy (ibe_Extract toy (masterPrivateKey round7) (idOf "alice"))
                            zeroNonce (replicate 32 x02) (replicate 32 x65) ∧
    IdentitySig reply =
      Some (bls_Sign toy (rs_blsPrivateKey round7)
              (bls_MarshalBinary toy (replicate 128 x50) ++ idOf "alice"
                 ++ UserLongTermKey request)) ∧
    extractReply_Verify toy reply (publicKey srv) = Returned true.
Proof.
  apply (extractHandler_serves_signed_request toy calm srv
           (unsigned (Some (replicate 32 x02))) request world0 round7 (idOf "alice")
           {| LoginKey := aliceKey |} (replicate 32 x02) aliceKey
           (replicate 32 x45) (replicate 32 x65) (replicate 128 x50)).
  - reflexivity.
  - reflexivity.
  - apply toy_key_pair.
  - apply toy_key_pair.
  - reflexivity.
  - reflexivity.
  - reflexivity.
  - split; [reflexivity|]. exists aliceKey. split; vm_compute; reflexivity.
  - reflexivity.
  - reflexivity.
  - reflexivity.
  - reflexivity.
Defined.

Lemma extract_atomicity_witness :
  extract toy calm srv request world0 = (Returned (replied.1, replied.2), world1) ∧
  (is_Some replied.2 → replied.1 = None) ∧
  (is_Some replied.1 →
   replied.2 = None ∧
   ∃ id t,
     UsernameToIdentity toy (args_Username request) = inr id ∧
     let key := dbUserKey toy id lastExtractionSuffix in
     let value := lastExtraction_Marshal toy {| le_Round := args_Round request; UnixTime := t |} in
     db world1 !! key = Some value ∧
     (t ≤ clock world1)%Z ∧
     log world1 = log world0 ++ [EvGet (dbUserKey toy id registrationSuffix); EvNow t;
                                 EvCommit key value; EvGenerateKey]).
Proof.
  split.
  - vm_compute. reflexivity.
  - apply (extract_atomicity toy calm srv request world0 world1 replied.1 replied.2).
    vm_compute. reflexivity.
Defined.

Lemma extract_requires_ReturnKey_witness :
  (∃ w', extract toy calm srv requestWithoutReturnKey world0 = (Panicked nilDeref, w')) ∧
  (∃ w', extractHandler toy calm srv (inr requestWithoutReturnKey) world0
         = (Panicked nilDeref, w')).
Proof.
  apply (extract_requires_ReturnKey toy calm srv requestWithoutReturnKey world0
           round7 (idOf "alice") {| LoginKey := aliceKey |}).
  - reflexivity.
  - reflexivity.
  - reflexivity.
  - split; [reflexivity|]. exists aliceKey. split; vm_compute; reflexivity.
  - reflexivity.
Defined.


Lemma tagged_preimages_differ_witness :
  ∃ ma mr,
    extractArgs_msg toy request = Returned ma ∧
    extractReply_msg toy unsignedReply = Returned mr ∧
    ma ≠ mr.
Proof.
  eexists _, _. split; [reflexivity|]. split; [reflexivity|].
  apply (tagged_preimages_differ toy request unsignedReply).
  - reflexivity.
  - reflexivity.
Defined.

End PKGProps.

(** ** Properties of the dialing client *)

Module DialingProps.
Import Dialing DialingSpec.

Ltac run_handler :=
  unfold newDialingRound, sendDialingOnion, scanBloomFilter, nextOutgoingCall, recordRound,
    persistLocked, persistKeywheel, persistClient, WriteFileAtomic, Handler_Error,
    emit, update, Go.bind, Go.ret, Go.gets, Go.modify, Go.lift, Go.panic in *;
  simpl in *.

Section Handlers.
Context (X : Externals).

Lemma logged_nil (s : State X) : logged X s [] = s.
Proof. destruct s. unfold logged. simpl. by rewrite app_nil_r. Qed.

Lemma logged_logged (s : State X) (es es' : list (Event X)) :
  logged X (logged X s es) es' = logged X s (es ++ es').
Proof. unfold logged. simpl. by rewrite app_assoc. Qed.

(** *** The loop over the mixers *)

Lemma verify_stops_at_bad_signature (msg : bytes) (sigs : list bytes) (mixers : list ServerConfig) :
  ∀ (first j : nat) (mixer : ServerConfig) (sig : bytes),
    mixers !! j = Some mixer →
    sigs !! (first + j) = Some sig →
    ed25519_Verify X (Key mixer) msg sig = false →
    ∃ culprit, verifyMixServers X msg sigs first mixers = Returned (Some culprit).
Proof.
  induction mixers as [|head rest IH]; intros first j mixer sig Hmixer Hsig Hbad.
  - discriminate.
  - simpl. destruct (sigs !! first) as [sig0|] eqn:Hfirst.
    + destruct j as [|j]; simpl in Hmixer.
      * injection Hmixer as ->. rewrite Nat.add_0_r in Hsig.
        rewrite Hfirst in Hsig. injection Hsig as ->. rewrite Hbad. simpl. eauto.
      * destruct (ed25519_Verify X (Key head) msg sig0); simpl; [|eauto].
        apply (IH (S first) j mixer sig); [done| |done].
        by rewrite <- Nat.add_succ_comm in Hsig.
    + apply lookup_ge_None in Hfirst. apply lookup_lt_Some in Hsig. lia.
Qed.

Lemma verify_reports_first_failure (msg : bytes) (sigs : list bytes)
    (mixers : list ServerConfig) :
  ∀ (first i : nat) (mixer : ServerConfig) (sig : bytes),
    mixers !! i = Some mixer →
    sigs !! (first + i) = Some sig →
    ed25519_Verify X (Key mixer) msg sig = false →
    (∀ j mixer' sig', j < i → mixers !! j = Some mixer' → sigs !! (first + j) = Some sig' →
                      ed25519_Verify X (Key mixer') msg sig' = true) →
    verifyMixServers X msg sigs first mixers = Returned (Some mixer).
Proof.
  induction mixers as [|head rest IH]; intros first i mixer sig Hmixer Hsig Hbad Hgood.
  - discriminate.
  - simpl. destruct i as [|i]; simpl in Hmixer.
    + injection Hmixer as ->. rewrite Nat.add_0_r in Hsig. rewrite Hsig, Hbad. reflexivity.
    + destruct (sigs !! first) as [sig0|] eqn:Hfirst.
      * rewrite (Hgood 0 head sig0); [simpl|lia|done|by rewrite Nat.add_0_r].
        apply (IH (S first) i mixer sig); [done| |done|].
        { by rewrite <- Nat.add_succ_comm in Hsig. }
        intros j mixer' sig' Hj Hm Hs. apply (Hgood (S j) mixer' sig'); [lia|done|].
        by rewrite <- Nat.add_succ_comm.
      * apply lookup_ge_None in Hfirst. apply lookup_lt_Some in Hsig. lia.
Qed.

Lemma verify_in_bounds (msg : bytes) (sigs : list bytes) (mixers : list ServerConfig) :
  ∀ first : nat,
    first + length mixers ≤ length sigs →
    ∃ verdict, verifyMixServers X msg sigs first mixers = Returned verdict.
Proof.
  induction mixers as [|head rest IH]; intros first Hlen; simpl in *.
  - eauto.
  - destruct (lookup_lt_is_Some_2 sigs first) as [sig ->]; [lia|].
    destruct (ed25519_Verify X (Key head) msg sig); simpl; [|eauto].
    apply IH. lia.
Qed.

Lemma verify_runs_out (msg : bytes) (sigs : list bytes) (mixers : list ServerConfig) :
  ∀ first : nat,
    first ≤ length sigs < first + length mixers →
    (∀ j mixer sig, mixers !! j = Some mixer → sigs !! (first + j) = Some sig →
                    ed25519_Verify X (Key mixer) msg sig = true) →
    verifyMixServers X msg sigs first mixers = Panicked indexOutOfRange.
Proof.
  induction mixers as [|head rest IH]; intros first Hlen Hgood; simpl in *.
  - lia.
  - destruct (sigs !! first) as [sig|] eqn:Hfirst; [|reflexivity].
    rewrite (Hgood 0 head sig); [simpl|done|by rewrite Nat.add_0_r].
    apply lookup_lt_Some in Hfirst.
    apply IH; [lia|].
    intros j mixer sig' Hmixer Hsig. apply (Hgood (S j) mixer sig'); [done|].
    by rewrite <- Nat.add_succ_comm.
Qed.

(** Once the signatures are judged, the handler returns. *)
Lemma sendDialingOnion_returns (v : MixRound) (s : State X) (st : dialingRoundState X)
    (verdict : option ServerConfig) :
  dialingRounds (client s) !! rs_Round (MixSettings v) = Some st →
  verifyMixServers X (SigningMessage X (MixSettings v)) (MixSignatures v) 0
    (MixServers (Config st)) = Returned verdict →
  ∃ s', sendDialingOnion X v s = (Returned tt, s').
Proof.
  intros Hround Hverdict. run_handler. rewrite Hround.
  destruct (ServiceData_Unmarshal X _); [eauto|].
  rewrite Hverdict. destruct verdict; [eauto|].
  simpl. destruct (outgoingCalls (client s)); simpl; eauto.
Qed.

(** *** The loops of the scan *)

Lemma callsFrom_cons (filter : Filter X) (w : Wheel X) (round : N) (first : nat)
    (user : string) (token : bytes) (rest : list bytes) :
  callsFrom X filter w round first {| FromUsername := user; Tokens := token :: rest |} =
  (if Test X filter token then
     [{| ic_Username := user; ic_Intent := first;
         SessionKey := wheel_SessionKey X w user round |}]
   else [])
  ++ callsFrom X filter w round (S first) {| FromUsername := user; Tokens := rest |}.
Proof.
  unfold callsFrom. simpl. rewrite Nat.add_0_r.
  assert (Hshift :
    imap ((λ i token',
             if Test X filter token' then
               Some {| ic_Username := user; ic_Intent := first + i;
                       SessionKey := wheel_SessionKey X w user round |}
             else None) ∘ S) rest
    = imap (λ i token',
              if Test X filter token' then
                Some {| ic_Username := user; ic_Intent := S first + i;
                        SessionKey := wheel_SessionKey X w user round |}
              else None) rest).
  { apply imap_ext. intros i token' _. simpl. by rewrite Nat.add_succ_r. }
  rewrite Hshift. by destruct (Test X filter token).
Qed.

Lemma scanTokens_run (filter : Filter X) (round : N) (user : string) (tokens : list bytes) :
  ∀ (first : nat) (s : State X),
    scanTokens X filter round user first tokens s =
    (Returned tt,
     logged X s (HandlerReceivedCall <$>
                 callsFrom X filter (wheel (client s)) round first
                   {| FromUsername := user; Tokens := tokens |})).
Proof.
  induction tokens as [|token rest IH]; intros first s.
  - simpl. unfold Go.ret. by rewrite logged_nil.
  - rewrite callsFrom_cons. simpl. unfold Go.bind at 1.
    destruct (Test X filter token) eqn:Htest.
    + run_handler. rewrite IH. simpl. unfold logged. simpl.
      by rewrite <- app_assoc.
    + run_handler. by rewrite IH.
Qed.

Lemma scanUsers_run (filter : Filter X) (round : N) (allTokens : list UserDialTokens) :
  ∀ s : State X,
    scanUsers X filter round allTokens s =
    (Returned tt,
     logged X s (HandlerReceivedCall <$>
                 receivedCalls X filter (wheel (client s)) round allTokens)).
Proof.
  unfold receivedCalls.
  induction allTokens as [|user rest IH]; intros s.
  - simpl. unfold Go.ret. by rewrite logged_nil.
  - simpl. unfold Go.bind. rewrite scanTokens_run. rewrite IH. simpl.
    rewrite logged_logged, fmap_app. by destruct user.
Qed.

(** The scan from the decoded filter on is what the specification asks. *)
Lemma scan_decoded (env : Env X) (v : MailboxURL) (s : State X) (st : dialingRoundState X)
    (mailbox : bytes) (filter : Filter X) (failure : option string) :
  dialingRounds (client s) !! mb_Round v = Some st →
  fetchMailbox env (CDNServer (Config st)) (URL v)
    (usernameToMailbox X (Username (client s)) (NumMailboxes v)) = inr mailbox →
  UnmarshalBinary X (newFilter X) mailbox = (filter, failure) →
  scanBloomFilter X env v s =
  afterDecode X env v filter
    (logged X s
       (CallFetchMailbox (CDNServer (Config st)) (URL v)
          (usernameToMailbox X (Username (client s)) (NumMailboxes v))
        :: match failure with
           | Some err => [HandlerError (errors_Wrap err "decoding bloom filter")]
           | None => []
           end)).
Proof.
  intros Hround Hfetch Hdecode.
  unfold scanBloomFilter, Go.bind at 1, Go.gets at 1. rewrite Hround.
  unfold Go.bind at 1, emit at 1, Go.modify at 1. simpl. rewrite Hfetch, Hdecode.
  unfold afterDecode.
  destruct failure as [err|]; run_handler; rewrite scanUsers_run; simpl;
    unfold logged; simpl;
    destruct (wheel_MarshalBinary X _) as [e|data]; simpl;
    rewrite <- ?app_assoc; simpl; try reflexivity;
    destruct (writeFault env _ data); simpl; rewrite <- ?app_assoc; reflexivity.
Qed.

(** C5. Round uniqueness: a [newround] for a round that has state returns
    with the client and the disk as they were; when the announced hash
    differs from the recorded [ConfigParent.Hash()] the one thing it does
    is report an application error, and when the hashes match it does
    nothing at all, so it fetches no configuration. *)
Theorem duplicate_newround (env : Env X) (v : NewRound) (s : State X) (st : dialingRoundState X) :
  dialingRounds (client s) !! nr_Round v = Some st →
  ∃ s', newDialingRound X env v s = (Returned tt, s') ∧
        client s' = client s ∧
        disk s' = disk s ∧
        (Hash X (ConfigParent st) ≠ ConfigHash v →
         trace s' = trace s ++
           [HandlerError (errors_New "coordinator announced different configs round %d"
                            [ArgNum (nr_Round v)])]) ∧
        (Hash X (ConfigParent st) = ConfigHash v → s' = s).
Proof.
  intros Hround. run_handler. rewrite Hround.
  destruct (decide (Hash X (ConfigParent st) ≠ ConfigHash v)) as [Hne|Heq]; simpl.
  - eexists. split; [reflexivity|]. simpl. split; [done|]. split; [done|].
    split; [done|]. intros Heq. done.
  - exists s. split; [done|]. split; [done|]. split; [done|].
    split; [|done]. intros Hne. done.
Qed.

(** C6. Mixer-chain verification: on a configured round, if some
    [MixSignatures[i]] does not verify under [MixServers[i].Key] over the
    settings message, the handler returns having done one thing, the
    report of an application error: no onion is sent, and the client is as
    it was. *)
Theorem bad_signature_sends_no_onion (v : MixRound) (s : State X)
    (st : dialingRoundState X) (i : nat) (mixer : ServerConfig) (sig : bytes) :
  dialingRounds (client s) !! rs_Round (MixSettings v) = Some st →
  MixServers (Config st) !! i = Some mixer →
  MixSignatures v !! i = Some sig →
  ed25519_Verify X (Key mixer) (SigningMessage X (MixSettings v)) sig = false →
  ∃ e, sendDialingOnion X v s = (Returned tt, logged X s [HandlerError e]).
Proof.
  intros Hround Hmixer Hsig Hbad. run_handler. rewrite Hround.
  destruct (ServiceData_Unmarshal X _); [eauto|].
  destruct (verify_stops_at_bad_signature _ _ _ 0 i mixer sig Hmixer Hsig Hbad)
    as [culprit ->].
  eauto.
Qed.

(** C7. Forward secrecy of the wheel: when the mailbox of a configured
    round is fetched and the handler returns, the client's wheel is the old
    one with the round's keys erased, a query for the round's tokens
    yields none (by the law of [EraseKeys], which the key-wheel package
    owes), and the last thing the handler did was to write the erased
    wheel to the key-wheel file; if the erased wheel cannot be persisted
    the handler panics. *)
Theorem mailbox_erases_keys
    (Herase : ∀ w user round maxIntent,
        IncomingDialTokens X (EraseKeys X w round) user round maxIntent = [])
    (env : Env X) (v : MailboxURL) (s : State X) (st : dialingRoundState X)
    (mailbox : bytes) :
  dialingRounds (client s) !! mb_Round v = Some st →
  fetchMailbox env (CDNServer (Config st)) (URL v)
    (usernameToMailbox X (Username (client s)) (NumMailboxes v)) = inr mailbox →
  (∀ s', scanBloomFilter X env v s = (Returned tt, s') →
         wheel (client s') = EraseKeys X (wheel (client s)) (mb_Round v) ∧
         (∀ user maxIntent,
            IncomingDialTokens X (wheel (client s')) user (mb_Round v) maxIntent = []) ∧
         ∃ data earlier,
           wheel_MarshalBinary X (wheel (client s')) = inr data ∧
           disk s' !! KeywheelPersistPath (client s) = Some data ∧
           trace s' = earlier ++ [WriteFile (KeywheelPersistPath (client s)) data true]) ∧
  (∀ e, keywheel_persist_fails X env s (mb_Round v) e →
        ∃ s', scanBloomFilter X env v s = (Panicked e, s')).
Proof.
  intros Hround Hfetch.
  destruct (UnmarshalBinary X (newFilter X) mailbox) as [filter failure] eqn:Hdecode.
  rewrite (scan_decoded env v s st mailbox filter failure Hround Hfetch Hdecode).
  unfold afterDecode, keywheel_persist_fails. simpl.
  destruct (wheel_MarshalBinary X _) as [e0|data] eqn:Hmarshal.
  - split; [intros s' [=]|].
    intros e [[= ->] | (data & [=] & _)]. eauto.
  - destruct (writeFault env _ data) as [e0|] eqn:Hwrite.
    + split; [intros s' [=]|].
      intros e [[=] | (data' & [= <-] & Hfault)].
      rewrite Hwrite in Hfault. injection Hfault as ->. eauto.
    + split.
      * intros s' [= <-]. simpl. split; [reflexivity|]. split; [by intros; apply Herase|].
        exists data. eexists. split; [done|]. split; [apply lookup_insert_eq|reflexivity].
      * intros e [[=] | (data' & [= <-] & Hfault)]. congruence.
Qed.

(** C9, as amended. The loop indexes [MixSignatures] unchecked: on a
    configured round whose service data parses, the handler returns when
    there are at least as many signatures as mixers; when there are fewer
    and every signature present verifies, it panics on the index past the
    last signature, with no error reported and no onion sent; and when a
    signature that is present fails to verify and all before it verify,
    whatever the number of signatures, the handler stops at that mixer: it
    reports the verification error that names the mixer's key and returns,
    having done nothing else. *)
Theorem unchecked_signature_index (v : MixRound) (s : State X)
    (st : dialingRoundState X) (serviceData : ServiceData) :
  dialingRounds (client s) !! rs_Round (MixSettings v) = Some st →
  ServiceData_Unmarshal X (RawServiceData (MixSettings v)) = inr serviceData →
  (length (MixServers (Config st)) ≤ length (MixSignatures v) →
   ∃ s', sendDialingOnion X v s = (Returned tt, s')) ∧
  (length (MixSignatures v) < length (MixServers (Config st)) →
   (∀ i mixer sig,
      MixServers (Config st) !! i = Some mixer →
      MixSignatures v !! i = Some sig →
      ed25519_Verify X (Key mixer) (SigningMessage X (MixSettings v)) sig = true) →
   sendDialingOnion X v s = (Panicked indexOutOfRange, s)) ∧
  (∀ i mixer sig,
     MixServers (Config st) !! i = Some mixer →
     MixSignatures v !! i = Some sig →
     ed25519_Verify X (Key mixer) (SigningMessage X (MixSettings v)) sig = false →
     (∀ j mixer' sig',
        j < i →
        MixServers (Config st) !! j = Some mixer' →
        MixSignatures v !! j = Some sig' →
        ed25519_Verify X (Key mixer') (SigningMessage X (MixSettings v)) sig' = true) →
     sendDialingOnion X v s =
     (Returned tt,
      logged X s
        [HandlerError
           (errors_New "round %d: failed to verify mixnet settings for key %s"
              [ArgNum (rs_Round (MixSettings v));
               ArgStr (base32_EncodeToString X (Key mixer))])])).
Proof.
  intros Hround Hparse. split; [|split].
  - intros Hlen.
    destruct (verify_in_bounds (SigningMessage X (MixSettings v)) (MixSignatures v)
                (MixServers (Config st)) 0) as [verdict Hverdict]; [simpl; lia|].
    by eapply sendDialingOnion_returns.
  - intros Hlen Hgood. run_handler. rewrite Hround, Hparse.
    rewrite verify_runs_out; [reflexivity|simpl; lia|done].
  - intros i mixer sig Hmixer Hsig Hbad Hgood.
    pose proof (verify_reports_first_failure (SigningMessage X (MixSettings v))
                  (MixSignatures v) (MixServers (Config st)) 0 i mixer sig
                  Hmixer Hsig Hbad Hgood) as Hverdict.
    run_handler. rewrite Hround, Hparse, Hverdict. reflexivity.
Qed.

(** C10. A mailbox that does not decode does not stop the scan: provided a
    failed [UnmarshalBinary] leaves its receiver as it was, the handler
    reports the decoding error and goes on from the zero-value filter as
    the specification describes the scan (calls announced by the filter,
    keys erased, erased wheel persisted), which is also how it goes on
    from the filter of a mailbox that does decode. *)
Theorem decode_failure_continues
    (Hzero : ∀ f data f' e, UnmarshalBinary X f data = (f', Some e) → f' = f)
    (env : Env X) (v : MailboxURL) (s : State X) (st : dialingRoundState X)
    (mailbox : bytes) (filter : Filter X) (err : string) :
  dialingRounds (client s) !! mb_Round v = Some st →
  let cdn := CDNServer (Config st) in
  let mailboxID := usernameToMailbox X (Username (client s)) (NumMailboxes v) in
  fetchMailbox env cdn (URL v) mailboxID = inr mailbox →
  UnmarshalBinary X (newFilter X) mailbox = (filter, Some err) →
  scanBloomFilter X env v s =
    afterDecode X env v (newFilter X)
      (logged X s [CallFetchMailbox cdn (URL v) mailboxID;
                   HandlerError (errors_Wrap err "decoding bloom filter")]) ∧
  (∀ (env' : Env X) (mailbox' : bytes) (filter' : Filter X),
     fetchMailbox env' cdn (URL v) mailboxID = inr mailbox' →
     UnmarshalBinary X (newFilter X) mailbox' = (filter', None) →
     scanBloomFilter X env' v s =
       afterDecode X env' v filter' (logged X s [CallFetchMailbox cdn (URL v) mailboxID])).
Proof.
  intros Hround cdn mailboxID Hfetch Hdecode. split.
  - rewrite <- (Hzero _ _ _ _ Hdecode) at 1.
    by rewrite (scan_decoded env v s st mailbox filter (Some err)).
  - intros env' mailbox' filter' Hfetch' Hdecode'.
    apply (scan_decoded env' v s st mailbox' filter' None); done.
Qed.

Lemma writtenPaths_calls (calls : list IncomingCall) :
  writtenPaths X (HandlerReceivedCall <$> calls) = [].
Proof. induction calls; [reflexivity|assumption]. Qed.

Lemma writtenPaths_app (events events' : list (Event X)) :
  writtenPaths X (events ++ events') = writtenPaths X events ++ writtenPaths X events'.
Proof. apply omap_app. Qed.

(** C4. The Bloom-filter scan persists the key wheel alone: when the
    mailbox of a configured round is fetched and the handler returns, the
    one file it has written is the key-wheel file, and the disk differs
    from the disk before in that file only; the client state file is not
    written with it, against the comment on [persistLocked]. *)
Theorem scan_persists_keywheel_alone (env : Env X) (v : MailboxURL) (s s' : State X)
    (st : dialingRoundState X) (mailbox : bytes) :
  dialingRounds (client s) !! mb_Round v = Some st →
  fetchMailbox env (CDNServer (Config st)) (URL v)
    (usernameToMailbox X (Username (client s)) (NumMailboxes v)) = inr mailbox →
  scanBloomFilter X env v s = (Returned tt, s') →
  ∃ events data,
    trace s' = trace s ++ events ∧
    writtenPaths X events = [KeywheelPersistPath (client s)] ∧
    disk s' = <[KeywheelPersistPath (client s) := data]> (disk s).
Proof.
  intros Hround Hfetch.
  destruct (UnmarshalBinary X (newFilter X) mailbox) as [filter failure] eqn:Hdecode.
  rewrite (scan_decoded env v s st mailbox filter failure Hround Hfetch Hdecode).
  unfold afterDecode. simpl.
  destruct (wheel_MarshalBinary X _) as [e|data]; [intros [=]|].
  destruct (writeFault env _ data); intros [= <-]. simpl.
  eexists _, data. rewrite <- !app_assoc. split; [reflexivity|]. split; [|reflexivity].
  rewrite !writtenPaths_app, writtenPaths_calls. by destruct failure.
Qed.

(** X1. [persistLocked], with both paths set and both encoders working,
    attempts the client file and then the key-wheel file in one call. *)
Theorem persistLocked_writes_both (env : Env X) (s : State X) (clientData wheelData : bytes) :
  ClientPersistPath (client s) ≠ "" →
  KeywheelPersistPath (client s) ≠ "" →
  json_MarshalIndent env (persistedStateOf X (client s)) = inr clientData →
  wheel_MarshalBinary X (wheel (client s)) = inr wheelData →
  ∃ err s' ok ok',
    persistLocked X env s = (Returned err, s') ∧
    client s' = client s ∧
    trace s' = trace s ++ [WriteFile (ClientPersistPath (client s)) clientData ok;
                           WriteFile (KeywheelPersistPath (client s)) wheelData ok'].
Proof.
  intros Hclient Hwheel Hjson Hmarshal. run_handler.
  destruct (decide (ClientPersistPath (client s) ≠ "")); [|done].
  destruct (decide (KeywheelPersistPath (client s) ≠ "")); [|done].
  simpl. rewrite Hjson.
  destruct (writeFault env (ClientPersistPath (client s)) clientData); simpl;
    rewrite Hmarshal;
    destruct (writeFault env (KeywheelPersistPath (client s)) wheelData); simpl;
    do 4 eexists; (split; [reflexivity|]); simpl; rewrite <- ?app_assoc; split; reflexivity.
Qed.

(** X2. Cover traffic: on a configured round whose settings verify, with no
    outgoing call queued, the onion sent seals a message with mailbox 0 and
    an all-zero token, and [lastDialingRound] is the round. *)
Theorem cover_traffic_message (v : MixRound) (s : State X)
    (st : dialingRoundState X) (serviceData : ServiceData) :
  let round := rs_Round (MixSettings v) in
  dialingRounds (client s) !! round = Some st →
  ServiceData_Unmarshal X (RawServiceData (MixSettings v)) = inr serviceData →
  verifyMixServers X (SigningMessage X (MixSettings v)) (MixSignatures v) 0
    (MixServers (Config st)) = Returned None →
  outgoingCalls (client s) = [] →
  sendDialingOnion X v s =
  (Returned tt,
   {| client := set_lastDialingRound X round (client s);
      disk := disk s;
      trace := trace s ++
        [ConnSend "onion"
           {| om_Round := round;
              Onion := onionbox_Seal X
                         (mustMarshal X {| Mailbox := 0; Token := replicate 32 x00 |})
                         (ForwardNonce X round) (OnionKeys (MixSettings v)) |}] |}).
Proof.
  intros round Hround Hparse Hverified Hqueue. run_handler.
  fold round. rewrite Hround, Hparse, Hverified. simpl. rewrite Hqueue. reflexivity.
Qed.

(** X3. The common case of [newround]: a round without state, announced under
    the cached hash, is recorded from the cached configuration with no
    fetch, no callback and no write. *)
Theorem newround_cached_config (env : Env X) (v : NewRound) (s : State X) (cfg : DialingConfig) :
  dialingRounds (client s) !! nr_Round v = None →
  ConfigHash v = dialingConfigHash (client s) →
  Inner X (dialingConfig (client s)) = InnerDialing cfg →
  newDialingRound X env v s =
  (Returned tt,
   {| client :=
        set_dialingRounds X
          (<[nr_Round v := {| st_Round := nr_Round v; Config := cfg;
                              ConfigParent := dialingConfig (client s) |}]>
             (dialingRounds (client s)))
          (client s);
      disk := disk s;
      trace := trace s |}).
Proof.
  intros Hround Hhash Hinner. run_handler. rewrite Hround.
  destruct (decide (ConfigHash v = dialingConfigHash (client s))); [|done].
  rewrite Hinner. reflexivity.
Qed.

End Handlers.

Section MoreHandlers.
Context (X : Externals).

(** Unfolds a handler down to the state-passing functions, leaving the
    persistence calls and the loops of the scan folded. *)
Ltac step_handler :=
  unfold dialingMux, dialingRoundError, newDialingRound, sendDialingOnion, nextOutgoingCall,
    recordRound, Handler_Error, emit, update,
    Go.bind, Go.ret, Go.gets, Go.modify, Go.lift, Go.panic in *;
  simpl in *.

Ltac split_goal_run H :=
  repeat match type of H with
         | context [match ?x with _ => _ end] =>
             lazymatch x with
             | context [match _ with _ => _ end] => fail
             | _ => destruct x eqn:?; simpl in H
             end
         end.

Lemma persistLocked_client (env : Env X) (s s' : State X) (o : Outcome (option string)) :
  persistLocked X env s = (o, s') → client s' = client s.
Proof.
  intros Hrun. run_handler. split_goal_run Hrun; by simplify_eq.
Qed.

Lemma newDialingRound_keeps (env : Env X) (v : NewRound) (s s' : State X) (o : Outcome unit) :
  newDialingRound X env v s = (o, s') →
  ∀ round st, dialingRounds (client s) !! round = Some st →
              dialingRounds (client s') !! round = Some st.
Proof.
  intros Hrun round st Hst. step_handler.
  destruct (dialingRounds (client s) !! nr_Round v) as [st0|] eqn:Hround.
  { destruct (decide _); by simplify_eq. }
  assert (Hne : nr_Round v ≠ round) by congruence.
  destruct (decide _).
  { destruct (Inner X _); simplify_eq; simpl; [by rewrite lookup_insert_ne|done]. }
  destruct (FetchAndVerifyChain env _ _) as [err|[|newConfig older]];
    [by simplify_eq..|].
  destruct (persistLocked X env _) as [[[e|]|r] s1] eqn:Hpersist;
    apply persistLocked_client in Hpersist; simpl in Hpersist;
    [by simplify_eq; rewrite Hpersist| |by simplify_eq; rewrite Hpersist].
  destruct (Inner X newConfig); simplify_eq; simpl; rewrite Hpersist; simpl;
    [by rewrite lookup_insert_ne|done].
Qed.

Lemma sendDialingOnion_rounds (v : MixRound) (s s' : State X) (o : Outcome unit) :
  sendDialingOnion X v s = (o, s') →
  dialingRounds (client s') = dialingRounds (client s) ∧
  dialingConfig (client s') = dialingConfig (client s) ∧
  dialingConfigHash (client s') = dialingConfigHash (client s).
Proof.
  intros Hrun. step_handler. split_goal_run Hrun; by simplify_eq.
Qed.

(** X9. What the mix handler leaves alone: whatever the event and the
    outcome, [sendDialingOnion] writes no file and changes neither the
    disk, the wheel, the recorded rounds nor the cached configuration; the
    queue of outgoing calls is as before, or has lost its first call and
    then the last thing the handler did was to send the onion. *)
Theorem sendDialingOnion_frame (v : MixRound) (s s' : State X) (o : Outcome unit) :
  sendDialingOnion X v s = (o, s') →
  disk s' = disk s ∧
  wheel (client s') = wheel (client s) ∧
  dialingRounds (client s') = dialingRounds (client s) ∧
  dialingConfig (client s') = dialingConfig (client s) ∧
  (∃ events, trace s' = trace s ++ events ∧ writtenPaths X events = []) ∧
  (outgoingCalls (client s') = outgoingCalls (client s) ∨
   ∃ call earlier msg,
     outgoingCalls (client s) = call :: outgoingCalls (client s') ∧
     o = Returned tt ∧
     trace s' = earlier ++ [ConnSend "onion" msg]).
Proof.
  intros Hrun. step_handler. split_goal_run Hrun; simplify_eq; simpl;
    repeat (split; [done|]).
  all: split;
    [ first [ by exists []; rewrite app_nil_r
            | by eexists [_]
            | by eexists; split; [symmetry; apply app_assoc|] ]
    | first [ by left
            | right; eexists _, _, _; split; [done|]; split; [done|];
              first [done | by rewrite <- app_assoc] ] ].
Qed.

(** X10. A queued call goes out first in, first out: on a configured
    round whose service data parses and whose mixer signatures all verify,
    the first call of the queue is taken off it, stamped with the round
    and announced to the application, and the onion sent seals the call's
    token and the mailbox of the callee among the service's mailboxes. *)
Theorem first_call_is_sent (v : MixRound) (s : State X) (st : dialingRoundState X)
    (serviceData : ServiceData) (call : OutgoingCall) (later : list OutgoingCall) :
  let round := rs_Round (MixSettings v) in
  let stamped := {| oc_Username := oc_Username call; oc_Intent := oc_Intent call;
                    sentRound := round |} in
  dialingRounds (client s) !! round = Some st →
  ServiceData_Unmarshal X (RawServiceData (MixSettings v)) = inr serviceData →
  verifyMixServers X (SigningMessage X (MixSettings v)) (MixSignatures v) 0
    (MixServers (Config st)) = Returned None →
  outgoingCalls (client s) = call :: later →
  sendDialingOnion X v s =
  (Returned tt,
   {| client := set_outgoingCalls X later (set_lastDialingRound X round (client s));
      disk := disk s;
      trace := trace s ++
        [HandlerSendingCall stamped;
         ConnSend "onion"
           {| om_Round := round;
              Onion := onionbox_Seal X
                         (mustMarshal X
                            {| Mailbox := usernameToMailbox X (oc_Username call)
                                            (sd_NumMailboxes serviceData);
                               Token := computeKeys_token X (wheel (client s)) stamped |})
                         (ForwardNonce X round) (OnionKeys (MixSettings v)) |}] |}).
Proof.
  intros round stamped Hround Hparse Hverified Hqueue. step_handler.
  fold round. rewrite Hround, Hparse, Hverified. simpl. rewrite Hqueue. simpl.
  rewrite <- app_assoc. reflexivity.
Qed.

(** X11. A mailbox that is not scanned keeps the keys: for a round
    without state the handler does nothing at all, and when the mailbox
    cannot be fetched it reports the error and returns; in both cases the
    wheel (so the round's dial tokens) and the disk are as before. *)
Theorem unscanned_mailbox_keeps_keys (env : Env X) (v : MailboxURL) (s : State X) :
  (dialingRounds (client s) !! mb_Round v = None →
   scanBloomFilter X env v s = (Returned tt, s)) ∧
  (∀ st err,
     dialingRounds (client s) !! mb_Round v = Some st →
     let mailboxID := usernameToMailbox X (Username (client s)) (NumMailboxes v) in
     fetchMailbox env (CDNServer (Config st)) (URL v) mailboxID = inl err →
     ∃ s', scanBloomFilter X env v s = (Returned tt, s') ∧
           client s' = client s ∧ disk s' = disk s ∧
           trace s' = trace s ++ [CallFetchMailbox (CDNServer (Config st)) (URL v) mailboxID;
                                  HandlerError (errors_Wrap err "fetching mailbox")]).
Proof.
  split.
  - intros Hround. unfold scanBloomFilter, Go.bind, Go.gets. by rewrite Hround.
  - intros st err Hround mailboxID Hfetch.
    unfold scanBloomFilter, Go.bind at 1, Go.gets at 1. rewrite Hround.
    unfold Go.bind, emit, Handler_Error, emit, Go.modify. simpl.
    fold mailboxID. rewrite Hfetch. simpl.
    eexists. split; [reflexivity|]. simpl. by rewrite <- app_assoc.
Qed.

Lemma scanBloomFilter_rounds (env : Env X) (v : MailboxURL) (s s' : State X) (o : Outcome unit) :
  scanBloomFilter X env v s = (o, s') →
  dialingRounds (client s') = dialingRounds (client s) ∧
  dialingConfig (client s') = dialingConfig (client s) ∧
  dialingConfigHash (client s') = dialingConfigHash (client s).
Proof.
  intros Hrun.
  destruct (dialingRounds (client s) !! mb_Round v) as [st|] eqn:Hround.
  - destruct (fetchMailbox env (CDNServer (Config st)) (URL v)
                (usernameToMailbox X (Username (client s)) (NumMailboxes v)))
      as [err|mailbox] eqn:Hfetch.
    + unfold scanBloomFilter, Go.bind at 1, Go.gets at 1 in Hrun. rewrite Hround in Hrun.
      unfold Go.bind, emit, Handler_Error, emit, Go.modify in Hrun. simpl in Hrun.
      rewrite Hfetch in Hrun. simpl in Hrun. by simplify_eq.
    + destruct (UnmarshalBinary X (newFilter X) mailbox) as [filter failure] eqn:Hdecode.
      rewrite (scan_decoded X env v s st mailbox filter failure Hround Hfetch Hdecode) in Hrun.
      unfold afterDecode in Hrun. simpl in Hrun.
      split_goal_run Hrun; by simplify_eq.
  - unfold scanBloomFilter, Go.bind, Go.gets, Go.ret in Hrun. rewrite Hround in Hrun.
    by simplify_eq.
Qed.

(** *** What every handler keeps *)

Lemma dialingMux_keeps (env : Env X) (msg : Message) (s s' : State X) (o : Outcome unit) :
  dialingMux X env msg s = (o, s') →
  ∀ round st, dialingRounds (client s) !! round = Some st →
              dialingRounds (client s') !! round = Some st.
Proof.
  destruct msg as [v|v|v|v]; simpl; intros Hrun round st Hst.
  - by eapply newDialingRound_keeps.
  - apply sendDialingOnion_rounds in Hrun as (-> & _). done.
  - apply scanBloomFilter_rounds in Hrun as (-> & _). done.
  - unfold dialingRoundError, Go.ret in Hrun. by simplify_eq.
Qed.

Lemma newDialingRound_consistent (env : Env X) (v : NewRound) (s s' : State X)
    (o : Outcome unit) :
  newDialingRound X env v s = (o, s') →
  rounds_consistent X (client s) → rounds_consistent X (client s').
Proof.
  unfold rounds_consistent. intros Hrun Hold round st. step_handler.
  destruct (dialingRounds (client s) !! nr_Round v) as [st0|] eqn:Hround.
  { destruct (decide _); simplify_eq; apply Hold. }
  destruct (decide _).
  { destruct (Inner X (dialingConfig (client s))) eqn:Hinner; simplify_eq; simpl;
      [|apply Hold].
    rewrite lookup_insert. case_decide; [|apply Hold]. intros [= <-]. by subst. }
  destruct (FetchAndVerifyChain env _ _) as [err|[|newConfig older]];
    [simplify_eq; apply Hold..|].
  destruct (persistLocked X env _) as [[[e|]|r] s1] eqn:Hpersist;
    apply persistLocked_client in Hpersist; simpl in Hpersist;
    [simplify_eq; rewrite Hpersist; apply Hold| |simplify_eq; rewrite Hpersist; apply Hold].
  destruct (Inner X newConfig) eqn:Hinner; simplify_eq; simpl; rewrite Hpersist; simpl;
    [|apply Hold].
  rewrite lookup_insert. case_decide; [|apply Hold]. intros [= <-]. by subst.
Qed.

Lemma newDialingRound_coherent (env : Env X) (v : NewRound) (s s' : State X)
    (o : Outcome unit) :
  chain_ends_at_request X env →
  newDialingRound X env v s = (o, s') →
  cache_coherent X (client s) → cache_coherent X (client s').
Proof.
  unfold cache_coherent. intros Hchain Hrun Hold. step_handler.
  destruct (dialingRounds (client s) !! nr_Round v) as [st0|] eqn:Hround.
  { destruct (decide _); by simplify_eq. }
  destruct (decide _).
  { destruct (Inner X (dialingConfig (client s))); by simplify_eq. }
  destruct (FetchAndVerifyChain env _ _) as [err|configs] eqn:Hfetch; [by simplify_eq|].
  destruct (Hchain _ _ _ Hfetch) as (newest & older & -> & Hhash).
  destruct (persistLocked X env _) as [[[e|]|r] s1] eqn:Hpersist;
    apply persistLocked_client in Hpersist; simpl in Hpersist;
    [by simplify_eq; rewrite Hpersist| |by simplify_eq; rewrite Hpersist].
  destruct (Inner X newest); simplify_eq; simpl; by rewrite Hpersist.
Qed.

Lemma dialingMux_invariants (env : Env X) (msg : Message) (s s' : State X) (o : Outcome unit) :
  dialingMux X env msg s = (o, s') →
  (rounds_consistent X (client s) → rounds_consistent X (client s')) ∧
  (chain_ends_at_request X env →
   cache_coherent X (client s) → cache_coherent X (client s')).
Proof.
  unfold rounds_consistent, cache_coherent.
  destruct msg as [v|v|v|v]; simpl; intros Hrun.
  - split; [by eapply newDialingRound_consistent|].
    intros Hchain. by eapply newDialingRound_coherent.
  - apply sendDialingOnion_rounds in Hrun as (-> & -> & ->). done.
  - apply scanBloomFilter_rounds in Hrun as (-> & -> & ->). done.
  - unfold dialingRoundError, Go.ret in Hrun. by simplify_eq.
Qed.

(** X12. Recorded rounds are never replaced: whatever messages the
    coordinator sends and however the run ends, a round state that the
    client holds before is the state it holds for that round after. *)
Theorem recorded_rounds_are_kept (env : Env X) (msgs : list Message) :
  ∀ (s s' : State X) (o : Outcome unit),
    deliver X env msgs s = (o, s') →
    ∀ round st, dialingRounds (client s) !! round = Some st →
                dialingRounds (client s') !! round = Some st.
Proof.
  induction msgs as [|msg rest IH]; intros s s' o Hrun round st Hst.
  - unfold deliver, Go.ret in Hrun. by simplify_eq.
  - simpl in Hrun. unfold Go.bind in Hrun.
    destruct (dialingMux X env msg s) as [[[]|r] s1] eqn:Hfirst.
    + eapply IH; [exact Hrun|]. by eapply dialingMux_keeps.
    + simplify_eq. by eapply dialingMux_keeps.
Qed.

(** X13. Two invariants of the client over any run of coordinator
    messages: every recorded round state stays filed under its own round
    with the dialing configuration of its parent, and, for a configuration
    service that answers with a chain ending at the requested hash, the
    cached hash stays the hash of the cached configuration. *)
Theorem handlers_keep_invariants (env : Env X) (msgs : list Message) :
  ∀ (s s' : State X) (o : Outcome unit),
    deliver X env msgs s = (o, s') →
    (rounds_consistent X (client s) → rounds_consistent X (client s')) ∧
    (chain_ends_at_request X env →
     cache_coherent X (client s) → cache_coherent X (client s')).
Proof.
  induction msgs as [|msg rest IH]; intros s s' o Hrun.
  - unfold deliver, Go.ret in Hrun. by simplify_eq.
  - simpl in Hrun. unfold Go.bind in Hrun.
    destruct (dialingMux X env msg s) as [[[]|r] s1] eqn:Hfirst.
    + destruct (dialingMux_invariants env msg s s1 _ Hfirst) as [Hrounds Hcache].
      destruct (IH s1 s' o Hrun) as [Hrounds' Hcache']. split; auto.
    + simplify_eq. by eapply dialingMux_invariants.
Qed.

(** *** New rounds *)

(** X14. Announcing a round twice: if the cache is coherent, the
    configuration service answers with chains that end at the requested
    hash, and a first [newround] for a round without state returns with
    the round recorded, then the same [newround] again changes nothing and
    reports nothing. *)
Theorem newround_twice (env : Env X) (v : NewRound) (s s1 : State X) :
  cache_coherent X (client s) →
  chain_ends_at_request X env →
  dialingRounds (client s) !! nr_Round v = None →
  newDialingRound X env v s = (Returned tt, s1) →
  is_Some (dialingRounds (client s1) !! nr_Round v) →
  newDialingRound X env v s1 = (Returned tt, s1).
Proof.
  unfold cache_coherent. intros Hcache Hchain Hround Hrun Hrecorded.
  assert (Hhash : ∃ st, dialingRounds (client s1) !! nr_Round v = Some st ∧
                        Hash X (ConfigParent st) = ConfigHash v).
  { step_handler. rewrite Hround in Hrun.
    destruct (decide _) as [Hsame|Hother].
    - destruct (Inner X (dialingConfig (client s))); simplify_eq; simpl.
      eexists. rewrite lookup_insert_eq. split; [reflexivity|]. simpl. congruence.
    - destruct (FetchAndVerifyChain env _ _) as [err|configs] eqn:Hfetch.
      { simplify_eq. simpl in Hrecorded. rewrite Hround in Hrecorded.
        by destruct Hrecorded. }
      destruct (Hchain _ _ _ Hfetch) as (newest & older & -> & Hnewest).
      destruct (persistLocked X env _) as [[[e|]|r] s2] eqn:Hpersist; [done| |done].
      apply persistLocked_client in Hpersist. simpl in Hpersist.
      destruct (Inner X newest); simplify_eq; simpl. rewrite Hpersist. simpl.
      eexists. rewrite lookup_insert_eq. split; [reflexivity|]. done. }
  destruct Hhash as (st & Hst & Hhash).
  unfold newDialingRound, Go.bind, Go.gets, Go.ret. rewrite Hst.
  by destruct (decide _).
Qed.

(** X15. The two ways a fetch goes wrong, for a round without state
    announced under a hash that is not the cached one: when the
    configuration service fails the handler reports the error and leaves
    client and disk as they were, the round unrecorded; when it answers
    with an empty chain and no error the handler hands the empty list to
    the application and panics on [configs[0]]. *)
Theorem newround_fetch_goes_wrong (env : Env X) (v : NewRound) (s : State X) :
  dialingRounds (client s) !! nr_Round v = None →
  ConfigHash v ≠ dialingConfigHash (client s) →
  let asked := CallFetchAndVerifyChain (dialingConfig (client s)) (ConfigHash v) in
  (∀ err,
     FetchAndVerifyChain env (dialingConfig (client s)) (ConfigHash v) = inl err →
     newDialingRound X env v s =
     (Returned tt,
      logged X s [asked; HandlerError (errors_Wrap err "fetching dialing config")])) ∧
  (FetchAndVerifyChain env (dialingConfig (client s)) (ConfigHash v) = inr [] →
   newDialingRound X env v s =
   (Panicked indexOutOfRange, logged X s [asked; HandlerNewConfig []])).
Proof.
  intros Hround Hhash asked. split.
  - intros err Hfetch. step_handler. rewrite Hround.
    destruct (decide _); [done|]. rewrite Hfetch. unfold logged. simpl.
    by rewrite <- app_assoc.
  - intros Hfetch. step_handler. rewrite Hround.
    destruct (decide _); [done|]. rewrite Hfetch. unfold logged. simpl.
    by rewrite <- app_assoc.
Qed.

(** X16. What a round recorded under a new hash tells: if [newround]
    for a round without state, announced under a hash that is not the
    cached one, returns with the round recorded, then the configuration
    service answered with a chain, the application was handed that chain,
    the first configuration of the chain is now the cached one under the
    announced hash, the client was persisted without error after that
    adoption, and the round holds the dialing configuration of that first
    configuration. *)
Theorem recorded_under_new_hash (env : Env X) (v : NewRound) (s s' : State X) :
  dialingRounds (client s) !! nr_Round v = None →
  ConfigHash v ≠ dialingConfigHash (client s) →
  newDialingRound X env v s = (Returned tt, s') →
  is_Some (dialingRounds (client s') !! nr_Round v) →
  ∃ newest older cfg persisted,
    FetchAndVerifyChain env (dialingConfig (client s)) (ConfigHash v) = inr (newest :: older) ∧
    persistLocked X env (adopted X s newest (newest :: older) v) = (Returned None, persisted) ∧
    Inner X newest = InnerDialing cfg ∧
    dialingConfig (client s') = newest ∧
    dialingConfigHash (client s') = ConfigHash v ∧
    dialingRounds (client s') =
      <[nr_Round v := {| st_Round := nr_Round v; Config := cfg; ConfigParent := newest |}]>
        (dialingRounds (client s)) ∧
    disk s' = disk persisted ∧
    trace s' = trace persisted.
Proof.
  intros Hround Hhash Hrun Hrecorded. step_handler. rewrite Hround in Hrun.
  destruct (decide _); [done|].
  destruct (FetchAndVerifyChain env _ _) as [err|[|newest older]] eqn:Hfetch.
  - simplify_eq. simpl in Hrecorded. rewrite Hround in Hrecorded. by destruct Hrecorded.
  - done.
  - unfold adopted.
    match type of Hrun with
    | context [persistLocked X env ?st] =>
        destruct (persistLocked X env st) as [[[e|]|r] s2] eqn:Hpersist
    end; [done| |done].
    pose proof (persistLocked_client _ _ _ _ Hpersist) as Hclient. simpl in Hclient.
    destruct (Inner X newest) as [cfg|] eqn:Hinner; [|done].
    simplify_eq. simpl. rewrite Hclient. simpl.
    exists newest, older, cfg, s2.
    simpl in Hpersist. rewrite <- app_assoc in Hpersist. simpl in Hpersist.
    split; [done|]. split; [exact Hpersist|]. done.
Qed.

(** *** The scan *)

Lemma elem_of_receivedCalls (filter : Filter X) (w : Wheel X) (round : N)
    (allTokens : list UserDialTokens) (call : IncomingCall) :
  call ∈ receivedCalls X filter w round allTokens ↔
  ∃ user intent token,
    user ∈ allTokens ∧
    Tokens user !! intent = Some token ∧
    Test X filter token = true ∧
    call = {| ic_Username := FromUsername user; ic_Intent := intent;
              SessionKey := wheel_SessionKey X w (FromUsername user) round |}.
Proof.
  unfold receivedCalls, callsFrom. rewrite list_elem_of_bind. split.
  - intros (user & Hcall & Huser).
    apply list_elem_of_omap in Hcall as (picked & Hpicked & Hsome).
    apply elem_of_lookup_imap in Hpicked as (intent & token & -> & Htoken).
    simpl in Hsome. destruct (Test X filter token) eqn:Htest; [|discriminate].
    injection Hsome as <-. by exists user, intent, token.
  - intros (user & intent & token & Huser & Htoken & Htest & ->).
    exists user. split; [|done].
    apply list_elem_of_omap. eexists. split.
    + apply elem_of_lookup_imap. by exists intent, token.
    + simpl. by rewrite Htest.
Qed.

#[local] Set Warnings "-clear-no-such-hyp".

(** X17. The application hears of exactly the calls the filter
    announces: when the mailbox of a configured round is fetched, then
    whatever the outcome of the handler, the calls it has reported are
    those of the senders, intents and tokens that the wheel lists for the
    round and whose token tests positive in the decoded filter, each with
    the session key of its sender for the round. *)
Theorem scan_reports_positive_tokens (env : Env X) (v : MailboxURL) (s s' : State X)
    (o : Outcome unit) (st : dialingRoundState X) (mailbox : bytes)
    (filter : Filter X) (failure : option string) :
  dialingRounds (client s) !! mb_Round v = Some st →
  fetchMailbox env (CDNServer (Config st)) (URL v)
    (usernameToMailbox X (Username (client s)) (NumMailboxes v)) = inr mailbox →
  UnmarshalBinary X (newFilter X) mailbox = (filter, failure) →
  scanBloomFilter X env v s = (o, s') →
  ∃ events,
    trace s' = trace s ++ events ∧
    ∀ call,
      HandlerReceivedCall call ∈ events ↔
      ∃ user intent token,
        user ∈ IncomingDialTokens X (wheel (client s)) (Username (client s)) (mb_Round v)
                 (IntentMax X) ∧
        Tokens user !! intent = Some token ∧
        Test X filter token = true ∧
        call = {| ic_Username := FromUsername user; ic_Intent := intent;
                  SessionKey := wheel_SessionKey X (wheel (client s)) (FromUsername user)
                                  (mb_Round v) |}.
Proof.
  intros Hround Hfetch Hdecode Hrun.
  rewrite (scan_decoded X env v s st mailbox filter failure Hround Hfetch Hdecode) in Hrun.
  unfold afterDecode in Hrun. simpl in Hrun.
  set (calls := receivedCalls X filter (wheel (client s)) (mb_Round v) _) in Hrun.
  split_goal_run Hrun; simplify_eq; simpl; rewrite <- ?app_assoc.
  all: eexists; (split; [reflexivity|]); intros call;
    rewrite <- elem_of_receivedCalls; fold calls;
    rewrite ?elem_of_app, list_elem_of_fmap, ?elem_of_cons, ?elem_of_nil;
    naive_solver.
Qed.

(** *** Persisting and loading *)

(** X18. No silent failure of [persistLocked]: on a client with two
    different, non-empty persist paths, if [persistLocked] returns no
    error then both encoders succeeded, the client file holds the encoded
    client state and the key-wheel file the encoded wheel, every other
    file is as before, and the client itself is unchanged. *)
Theorem persistLocked_nil_means_saved (env : Env X) (s s' : State X) :
  ClientPersistPath (client s) ≠ "" →
  KeywheelPersistPath (client s) ≠ "" →
  ClientPersistPath (client s) ≠ KeywheelPersistPath (client s) →
  persistLocked X env s = (Returned None, s') →
  ∃ clientData wheelData,
    json_MarshalIndent env (persistedStateOf X (client s)) = inr clientData ∧
    wheel_MarshalBinary X (wheel (client s)) = inr wheelData ∧
    disk s' !! ClientPersistPath (client s) = Some clientData ∧
    disk s' !! KeywheelPersistPath (client s) = Some wheelData ∧
    (∀ path, path ≠ ClientPersistPath (client s) → path ≠ KeywheelPersistPath (client s) →
             disk s' !! path = disk s !! path) ∧
    client s' = client s.
Proof.
  intros Hclient Hwheel Hdiffer Hrun. run_handler.
  destruct (decide (ClientPersistPath (client s) ≠ "")); [|done].
  destruct (decide (KeywheelPersistPath (client s) ≠ "")); [|done].
  simpl in Hrun.
  destruct (json_MarshalIndent env _) as [e|clientData]; simpl in Hrun.
  { destruct (wheel_MarshalBinary X _); simpl in Hrun; [by simplify_eq|].
    destruct (writeFault env _ _); by simplify_eq. }
  destruct (writeFault env (ClientPersistPath (client s)) clientData); simpl in Hrun.
  { destruct (wheel_MarshalBinary X _); simpl in Hrun; [by simplify_eq|].
    destruct (writeFault env _ _); by simplify_eq. }
  destruct (wheel_MarshalBinary X _) as [e|wheelData]; simpl in Hrun; [by simplify_eq|].
  destruct (writeFault env _ wheelData); simpl in Hrun; simplify_eq. simpl.
  exists clientData, wheelData. split; [done|]. split; [done|].
  split; [by rewrite lookup_insert_ne, lookup_insert_eq|].
  split; [by rewrite lookup_insert_eq|].
  split; [|done]. intros path Hc Hw. by rewrite !lookup_insert_ne.
Qed.

Lemma friends_round_trip (saved : gmap string persistedFriend) :
  persistedFriendOf <$> (friendOf <$> saved) = saved.
Proof.
  rewrite <- map_fmap_compose. rewrite <- (map_fmap_id saved) at 2.
  apply map_fmap_ext. by intros username [].
Qed.



(** X20. A persisted client can be loaded back: if [Persist] returns no
    error on a client whose client path is set and differs from its
    key-wheel path, and the JSON decoder reads back what the encoder
    wrote for this client, then [LoadClient] on the client path succeeds
    with a client that has the same persisted state and the same client
    path; its key-wheel path is empty and it holds no rounds. *)
Theorem LoadClient_after_Persist (env : Env X)
    (json_Unmarshal : bytes → string + persistedState X)
    (settings : ConnectionSettingsT X) (noWheel : Wheel X) (noConfig : SignedConfig X)
    (s s' : State X) :
  (∀ data, json_MarshalIndent env (persistedStateOf X (client s)) = inr data →
           json_Unmarshal data = inr (persistedStateOf X (client s))) →
  ClientPersistPath (client s) ≠ "" →
  ClientPersistPath (client s) ≠ KeywheelPersistPath (client s) →
  Persist X env s = (Returned None, s') →
  ∃ loaded,
    LoadClient X json_Unmarshal settings noWheel noConfig (disk s')
      (ClientPersistPath (client s)) = inr loaded ∧
    persistedStateOf X loaded = persistedStateOf X (client s) ∧
    ClientPersistPath loaded = ClientPersistPath (client s) ∧
    KeywheelPersistPath loaded = "" ∧
    dialingRounds loaded = ∅.
Proof.
  intros Hjson Hclient Hdiffer Hrun. unfold Persist in Hrun.
  assert (Hsaved : ∃ data,
            json_MarshalIndent env (persistedStateOf X (client s)) = inr data ∧
            disk s' !! ClientPersistPath (client s) = Some data).
  { run_handler.
    destruct (decide (ClientPersistPath (client s) ≠ "")); [|done]. simpl in Hrun.
    destruct (json_MarshalIndent env _) as [e|clientData]; simpl in Hrun.
    { split_goal_run Hrun; by simplify_eq. }
    destruct (writeFault env (ClientPersistPath (client s)) clientData); simpl in Hrun.
    { split_goal_run Hrun; by simplify_eq. }
    exists clientData. split; [done|].
    split_goal_run Hrun; simplify_eq; simpl;
      rewrite ?lookup_insert_ne by done; by rewrite lookup_insert_eq. }
  destruct Hsaved as (data & Hdata & Hfile).
  unfold LoadClient. rewrite Hfile, (Hjson data Hdata).
  eexists. split; [reflexivity|].
  split; [|done].
  unfold persistedStateOf at 1, loadStateLocked. simpl. rewrite friends_round_trip.
  reflexivity.
Qed.

End MoreHandlers.


Import DialingDemo.

Lemma toy_erase_law (w : Wheel toy) (user : string) (round : N) (maxIntent : nat) :
  IncomingDialTokens toy (EraseKeys toy w round) user round maxIntent = [].
Proof.
  change (tokensAt (eraseUpTo w round) round = []). unfold tokensAt, eraseUpTo.
  induction w as [|entry w IH]; [reflexivity|].
  rewrite filter_cons. case_decide as Hlater; [|exact IH].
  rewrite bind_cons, IH, app_nil_r. case_decide; [lia|reflexivity].
Qed.

Lemma toy_decode_law (f : Filter toy) (data : bytes) (f' : Filter toy) (e : string) :
  UnmarshalBinary toy f data = (f', Some e) → f' = f.
Proof. simpl. case_decide; congruence. Qed.

Example configured_holds_round5 : dialingRounds (client configured) !! 5%N = Some round5.
Proof. vm_compute. reflexivity. Qed.

Example scenario6_received_call :
  trace scanned =
  [CallFetchMailbox (CDNServer threeMixers) "https://cdn/5" 1;
   HandlerReceivedCall {| ic_Username := "alice"; ic_Intent := 2;
                          SessionKey := wheel_SessionKey toy wheel0 "alice" 5 |};
   WriteFile "keywheel.bin" (be32 6) true].
Proof. vm_compute. reflexivity. Qed.

Lemma duplicate_newround_witness :
  ∃ s', newDialingRound toy net announceH2 configured = (Returned tt, s') ∧
        client s' = client configured ∧
        disk s' = disk configured ∧
        (Hash toy (ConfigParent round5) ≠ ConfigHash announceH2 →
         trace s' = trace configured ++
           [HandlerError (errors_New "coordinator announced different configs round %d"
                            [ArgNum (nr_Round announceH2)])]) ∧
        (Hash toy (ConfigParent round5) = ConfigHash announceH2 → s' = configured).
Proof.
  apply (duplicate_newround toy net announceH2 configured round5).
  vm_compute. reflexivity.
Defined.

Lemma bad_signature_sends_no_onion_witness :
  ∃ e, sendDialingOnion toy tampered configured
       = (Returned tt, logged toy configured [HandlerError e]).
Proof.
  apply (bad_signature_sends_no_onion toy tampered configured round5 1 (mixer x02) [xff]).
  - vm_compute. reflexivity.
  - reflexivity.
  - reflexivity.
  - vm_compute. reflexivity.
Defined.

Lemma mailbox_erases_keys_witness :
  scanBloomFilter toy net mailbox5 configured = (Returned tt, scanned) ∧
  wheel (client scanned) = EraseKeys toy (wheel (client configured)) 5 ∧
  (∀ user maxIntent, IncomingDialTokens toy (wheel (client scanned)) user 5 maxIntent = []) ∧
  ∃ data earlier,
    wheel_MarshalBinary toy (wheel (client scanned)) = inr data ∧
    disk scanned !! KeywheelPersistPath (client configured) = Some data ∧
    trace scanned = earlier ++ [WriteFile (KeywheelPersistPath (client configured)) data true].
Proof.
  assert (Hrun : scanBloomFilter toy net mailbox5 configured = (Returned tt, scanned)).
  { vm_compute. reflexivity. }
  split; [exact Hrun|].
  destruct (mailbox_erases_keys toy toy_erase_law net mailbox5 configured round5
              (be32 1 ++ token xa2)) as [Hreturned _].
  - vm_compute. reflexivity.
  - reflexivity.
  - exact (Hreturned scanned Hrun).
Defined.

Lemma unchecked_signature_index_witness :
  sendDialingOnion toy shortButValid configured = (Panicked indexOutOfRange, configured) ∧
  sendDialingOnion toy shortAndBad configured =
  (Returned tt,
   logged toy configured
     [HandlerError
        (errors_New "round %d: failed to verify mixnet settings for key %s"
           [ArgNum 5; ArgStr (base32_EncodeToString toy (Key (mixer x01)))])]).
Proof.
  split.
  - destruct (unchecked_signature_index toy shortButValid configured round5
                {| sd_NumMailboxes := 4 |}) as (_ & Hshort & _).
    + vm_compute. reflexivity.
    + reflexivity.
    + apply Hshort.
      * simpl. lia.
      * intros [|[|[|i]]] m sig Hm Hsig; simpl in Hm, Hsig; try discriminate;
          injection Hm as <-; injection Hsig as <-; vm_compute; reflexivity.
  - destruct (unchecked_signature_index toy shortAndBad configured round5
                {| sd_NumMailboxes := 4 |}) as (_ & _ & Hfails).
    + vm_compute. reflexivity.
    + reflexivity.
    + apply (Hfails 0 (mixer x01) [xff]).
      * reflexivity.
      * reflexivity.
      * vm_compute. reflexivity.
      * intros j m sig Hj. lia.
Defined.

(** C9, as it is worded, fails: one signature for three mixers, and that
    one invalid, ends in the application error of the verification. *)
Lemma short_and_bad_signature_is_reported : ¬ short_signatures_always_panic toy.
Proof.
  intros Hpanic.
  destruct (Hpanic shortAndBad configured round5) as [s' Hrun].
  - vm_compute. reflexivity.
  - simpl. lia.
  - apply (f_equal fst) in Hrun. vm_compute in Hrun. discriminate Hrun.
Qed.

Lemma decode_failure_continues_witness :
  scanBloomFilter toy netShortMailbox mailbox5 configured =
  afterDecode toy netShortMailbox mailbox5 (newFilter toy)
    (logged toy configured
       [CallFetchMailbox (CDNServer threeMixers) "https://cdn/5" 1;
        HandlerError (errors_Wrap "short data" "decoding bloom filter")]).
Proof.
  destruct (decode_failure_continues toy toy_decode_law netShortMailbox mailbox5 configured
              round5 [x00] [] "short data") as [Hfailed _].
  - vm_compute. reflexivity.
  - reflexivity.
  - reflexivity.
  - exact Hfailed.
Defined.

Lemma scan_persists_keywheel_alone_witness :
  ClientPersistPath (client configured) = "client.json" ∧
  KeywheelPersistPath (client configured) = "keywheel.bin" ∧
  scanBloomFilter toy net mailbox5 configured = (Returned tt, scanned) ∧
  ∃ events data,
    trace scanned = trace configured ++ events ∧
    writtenPaths toy events = [KeywheelPersistPath (client configured)] ∧
    disk scanned = <[KeywheelPersistPath (client configured) := data]> (disk configured).
Proof.
  assert (Hrun : scanBloomFilter toy net mailbox5 configured = (Returned tt, scanned)).
  { vm_compute. reflexivity. }
  split; [reflexivity|]. split; [reflexivity|]. split; [exact Hrun|].
  apply (scan_persists_keywheel_alone toy net mailbox5 configured scanned round5
           (be32 1 ++ token xa2)).
  - vm_compute. reflexivity.
  - reflexivity.
  - exact Hrun.
Defined.

Example scenario6_client_file_not_written :
  disk scanned !! "client.json" = None ∧ is_Some (disk scanned !! "keywheel.bin").
Proof. vm_compute. eauto. Qed.

Lemma persistLocked_writes_both_witness :
  ∃ err s' ok ok',
    persistLocked toy net configured = (Returned err, s') ∧
    client s' = client configured ∧
    trace s' = trace configured ++
      [WriteFile (ClientPersistPath (client configured)) (list_byte_of_string "{}") ok;
       WriteFile (KeywheelPersistPath (client configured)) (be32 5 ++ be32 6) ok'].
Proof.
  apply (persistLocked_writes_both toy net configured).
  - vm_compute. discriminate.
  - vm_compute. discriminate.
  - reflexivity.
  - reflexivity.
Defined.

Lemma cover_traffic_message_witness :
  sendDialingOnion toy (mix5 [signed (mixer x01); signed (mixer x02); signed (mixer x03)])
    configured =
  (Returned tt,
   {| client := set_lastDialingRound toy 5 (client configured);
      disk := disk configured;
      trace := trace configured ++
        [ConnSend "onion"
           {| om_Round := 5;
              Onion := onionbox_Seal toy
                         (mustMarshal toy {| Mailbox := 0; Token := replicate 32 x00 |})
                         (ForwardNonce toy 5) (OnionKeys settings5) |}] |}).
Proof.
  apply (cover_traffic_message toy
           (mix5 [signed (mixer x01); signed (mixer x02); signed (mixer x03)])
           configured round5 {| sd_NumMailboxes := 4 |}).
  - vm_compute. reflexivity.
  - reflexivity.
  - vm_compute. reflexivity.
  - reflexivity.
Defined.

Lemma newround_cached_config_witness :
  newDialingRound toy net {| nr_Round := 5; ConfigHash := "H1" |} start =
  (Returned tt,
   {| client := set_dialingRounds toy (<[5%N := round5]> (dialingRounds (client start)))
                  (client start);
      disk := disk start;
      trace := trace start |}).
Proof.
  apply (newround_cached_config toy net {| nr_Round := 5; ConfigHash := "H1" |} start
           threeMixers); reflexivity.
Defined.


Lemma toy_net_chain : chain_ends_at_request toy net.
Proof. intros have want configs. simpl. discriminate. Qed.

Lemma toy_netH2_chain : chain_ends_at_request toy netH2.
Proof.
  intros have want configs. simpl. case_decide as Hwant; [|discriminate].
  intros [= <-]. by exists configH2, [].
Qed.

Lemma sendDialingOnion_frame_witness :
  disk sent.2 = disk calling ∧
  wheel (client sent.2) = wheel (client calling) ∧
  dialingRounds (client sent.2) = dialingRounds (client calling) ∧
  dialingConfig (client sent.2) = dialingConfig (client calling) ∧
  (∃ events, trace sent.2 = trace calling ++ events ∧ writtenPaths toy events = []) ∧
  (outgoingCalls (client sent.2) = outgoingCalls (client calling) ∨
   ∃ call earlier msg,
     outgoingCalls (client calling) = call :: outgoingCalls (client sent.2) ∧
     sent.1 = Returned tt ∧
     trace sent.2 = earlier ++ [ConnSend "onion" msg]).
Proof.
  apply (sendDialingOnion_frame toy validMix calling sent.2 sent.1).
  vm_compute. reflexivity.
Defined.

Lemma first_call_is_sent_witness :
  sendDialingOnion toy validMix calling =
  (Returned tt,
   {| client := set_outgoingCalls toy [dave] (set_lastDialingRound toy 5 (client calling));
      disk := disk calling;
      trace := trace calling ++
        [HandlerSendingCall {| oc_Username := "carol"; oc_Intent := 1; sentRound := 5 |};
         ConnSend "onion"
           {| om_Round := 5;
              Onion := onionbox_Seal toy
                         (mustMarshal toy
                            {| Mailbox := usernameToMailbox toy "carol" 4;
                               Token := computeKeys_token toy (wheel (client calling))
                                          {| oc_Username := "carol"; oc_Intent := 1;
                                             sentRound := 5 |} |})
                         (ForwardNonce toy 5) (OnionKeys settings5) |}] |}).
Proof.
  apply (first_call_is_sent toy validMix calling round5 {| sd_NumMailboxes := 4 |}
           carol [dave]).
  - vm_compute. reflexivity.
  - reflexivity.
  - vm_compute. reflexivity.
  - reflexivity.
Defined.

Lemma recorded_rounds_are_kept_witness :
  dialingRounds (client ran.2) !! 5%N = Some round5.
Proof.
  apply (recorded_rounds_are_kept toy net session configured ran.2 ran.1).
  - vm_compute. reflexivity.
  - vm_compute. reflexivity.
Defined.

Lemma handlers_keep_invariants_witness :
  rounds_consistent toy (client ran.2) ∧ cache_coherent toy (client ran.2).
Proof.
  destruct (handlers_keep_invariants toy net (msg_newround {| nr_Round := 5; ConfigHash := "H1" |}
                                               :: session) start ran.2 ran.1)
    as [Hrounds Hcache].
  - vm_compute. reflexivity.
  - split.
    + apply Hrounds. intros round st Hst. vm_compute in Hst. discriminate.
    + apply Hcache; [apply toy_net_chain|reflexivity].
Defined.

Lemma newround_twice_witness :
  newDialingRound toy net {| nr_Round := 5; ConfigHash := "H1" |} configured
  = (Returned tt, configured).
Proof.
  apply (newround_twice toy net {| nr_Round := 5; ConfigHash := "H1" |} start configured).
  - reflexivity.
  - apply toy_net_chain.
  - reflexivity.
  - vm_compute. reflexivity.
  - exists round5. vm_compute. reflexivity.
Defined.

Lemma newround_fetch_goes_wrong_witness :
  newDialingRound toy net announceH2 start =
  (Returned tt,
   logged toy start [CallFetchAndVerifyChain (dialingConfig (client start)) "H2";
                     HandlerError (errors_Wrap "no such config" "fetching dialing config")]).
Proof.
  destruct (newround_fetch_goes_wrong toy net announceH2 start) as [Hfailed _].
  - reflexivity.
  - vm_compute. discriminate.
  - apply Hfailed. reflexivity.
Defined.

Example empty_chain_panics :
  (newDialingRound toy netEmptyChain announceH2 start).1 = Panicked indexOutOfRange.
Proof. vm_compute. reflexivity. Qed.

Lemma recorded_under_new_hash_witness :
  ∃ newest older cfg persisted,
    FetchAndVerifyChain netH2 (dialingConfig (client start)) (ConfigHash announceH2)
      = inr (newest :: older) ∧
    persistLocked toy netH2 (adopted toy start newest (newest :: older) announceH2)
      = (Returned None, persisted) ∧
    Inner toy newest = InnerDialing cfg ∧
    dialingConfig (client reconfigured) = newest ∧
    dialingConfigHash (client reconfigured) = ConfigHash announceH2 ∧
    dialingRounds (client reconfigured) =
      <[nr_Round announceH2 :=
          Build_dialingRoundState toy (nr_Round announceH2) cfg newest]>
        (dialingRounds (client start)) ∧
    disk reconfigured = disk persisted ∧
    trace reconfigured = trace persisted.
Proof.
  apply (recorded_under_new_hash toy netH2 announceH2 start reconfigured).
  - reflexivity.
  - vm_compute. discriminate.
  - vm_compute. reflexivity.
  - eexists. vm_compute. reflexivity.
Defined.

Lemma scan_reports_positive_tokens_witness :
  ∃ events,
    trace scanned = trace configured ++ events ∧
    ∀ call,
      HandlerReceivedCall call ∈ events ↔
      ∃ user intent tok,
        user ∈ IncomingDialTokens toy (wheel (client configured)) (Username (client configured))
                 (mb_Round mailbox5) (IntentMax toy) ∧
        Tokens user !! intent = Some tok ∧
        Test toy [token xa2] tok = true ∧
        call = {| ic_Username := FromUsername user; ic_Intent := intent;
                  SessionKey := wheel_SessionKey toy (wheel (client configured))
                                  (FromUsername user) (mb_Round mailbox5) |}.
Proof.
  apply (scan_reports_positive_tokens toy net mailbox5 configured scanned (Returned tt) round5
           (be32 1 ++ token xa2) [token xa2] None).
  - vm_compute. reflexivity.
  - reflexivity.
  - reflexivity.
  - vm_compute. reflexivity.
Defined.

Lemma persistLocked_nil_means_saved_witness :
  ∃ clientData wheelData,
    json_MarshalIndent net (persistedStateOf toy (client configured)) = inr clientData ∧
    wheel_MarshalBinary toy (wheel (client configured)) = inr wheelData ∧
    disk persisted !! ClientPersistPath (client configured) = Some clientData ∧
    disk persisted !! KeywheelPersistPath (client configured) = Some wheelData ∧
    (∀ path, path ≠ ClientPersistPath (client configured) →
             path ≠ KeywheelPersistPath (client configured) →
             disk persisted !! path = disk configured !! path) ∧
    client persisted = client configured.
Proof.
  apply (persistLocked_nil_means_saved toy net configured persisted).
  - vm_compute. discriminate.
  - vm_compute. discriminate.
  - vm_compute. discriminate.
  - vm_compute. reflexivity.
Defined.

Lemma LoadClient_after_Persist_witness :
  ∃ loaded,
    LoadClient toy readBack tt [] configH1 (disk persisted)
      (ClientPersistPath (client configured)) = inr loaded ∧
    persistedStateOf toy loaded = persistedStateOf toy (client configured) ∧
    ClientPersistPath loaded = ClientPersistPath (client configured) ∧
    KeywheelPersistPath loaded = "" ∧
    dialingRounds loaded = ∅.
Proof.
  apply (LoadClient_after_Persist toy net readBack tt [] configH1 configured persisted).
  - intros data [= <-]. vm_compute. reflexivity.
  - vm_compute. discriminate.
  - vm_compute. discriminate.
  - vm_compute. reflexivity.
Defined.

End DialingProps.
